(** * stock-bot: the alert rate limiter and the scan loop of [main.py]

    A shallow embedding of [main.py]: the price fetcher ([fetch_price],
    [get_prices]), the alert-log helpers ([buy_alert_sent_this_month],
    [log_buy_alert_month]) and the scan loop ([main_loop]) with its buy
    and sell phases.

    Conventions of the embedding.
    - Python floats are the binary64 floats of the kernel ([float]), with
      their comparisons [<?], [=?] and their product.
    - [alert_counters], the module-level dict, is a [gmap string nat]
      carried in the program state.
    - Everything the program does to the outside (a message posted to
      the IM channel, a mail, a row appended to the alert log, the sleep
      between two scans) is an [event] appended to the [trace] of the
      state.  Console prints are diagnostics and are left out.
    - A Python exception is the [Raised] result of a computation in the
      monad [M]; the state reached when it is raised is kept, as in
      Python, where nothing is rolled back.
    - What the program reads from the outside in one scan (the sheets,
      the clock, the market data) is a [world].
    - Sheet rows are the dicts of [get_all_records], with the columns the
      program reads.  A text column (Name, User, ...) holds [Some s], or
      [None] when the sheet has no such column; a numeric column holds a
      [cell].  The Stock column of the watch list and of the holdings
      holds [Some c] for the [cell] that [get_all_records] gives (an int
      for a cell of digits only), or [None] when the sheet has no such
      column.  Names are text.
    - [load_sheets] talks to the sheets service: what it returns, the
      user directory included, is given by the world. *)

From Stdlib Require Import Floats ZArith Ascii String.
From stdpp Require Import gmap strings list pretty.

Open Scope string_scope.
Open Scope list_scope.
Open Scope nat_scope.

(** ** Python values and builtins *)

(** The value of a sheet cell, as [get_all_records] gives it: absent,
    text, an int or a float. *)
Inductive cell :=
| CNone
| CStr (s : string)
| CInt (z : Z)
| CFloat (f : float).

(** Python truth value of a string: [if s:]. *)
Definition nonempty (s : string) : bool :=
  match s with
  | EmptyString => false
  | String _ _ => true
  end.

(** Python truth value of a cell; a float is false when it equals zero
    (both zeros), and NaN is true. *)
Definition truthy (c : cell) : bool :=
  match c with
  | CNone => false
  | CStr s => nonempty s
  | CInt z => negb (z =? 0)%Z
  | CFloat f => negb (f =? 0)%float
  end.

(** [a or b]. *)
Definition py_or (a b : cell) : cell := if truthy a then a else b.

(** [float(z)] for an int: rounding to nearest even, and OverflowError
    ([None]) when the int is beyond the float range. *)
Definition float_of_int (z : Z) : option float :=
  match binary_normalize prec emax z 0 false with
  | S754_infinity _ => None
  | sf => Some (SF2Prim sf)
  end.

(** [a > b] on floats. *)
Definition gtb (a b : float) : bool := (b <? a)%float.

(** [str(x)] for a value that is a string or [None]. *)
Definition str_opt (x : option string) : string :=
  match x with
  | Some s => s
  | None => "None"
  end.

(** One line feed, the [\n] of the message templates. *)
Definition nl : string := String "010"%char EmptyString.

(** ** Configuration *)

Definition MAX_ALERTS_PER_TRIGGER : nat := 5.
Definition CHECK_INTERVAL : nat := 5 * 60.

(** ** The clock *)

Record datetime := {
  dt_year : nat; dt_month : nat; dt_day : nat;
  dt_hour : nat; dt_minute : nat; dt_second : nat
}.

(** Two digits, zero padded. *)
Definition pad2 (n : nat) : string :=
  if (n <? 10)%nat then "0" +:+ pretty n else pretty n.

(** [strftime("%Y-%m")] *)
Definition strftime_Ym (d : datetime) : string :=
  pretty (dt_year d) +:+ "-" +:+ pad2 (dt_month d).

(** [strftime("%Y-%m-%d")] *)
Definition strftime_Ymd (d : datetime) : string :=
  strftime_Ym d +:+ "-" +:+ pad2 (dt_day d).

(** [strftime("%Y-%m-%d %H:%M:%S")] *)
Definition strftime_YmdHMS (d : datetime) : string :=
  strftime_Ymd d +:+ " " +:+ pad2 (dt_hour d) +:+ ":" +:+ pad2 (dt_minute d)
  +:+ ":" +:+ pad2 (dt_second d).

(** ** Sheets *)

Record user_info := { telegram_id : string; email : string }.

(** A row of the watch list (sheet1). *)
Record ath_row := {
  ath_Stock : option cell;
  ATH_Current_Month : cell;
  ATH : cell
}.

(** A row of "Active Holdings". *)
Record active_row := {
  act_Stock : option cell;
  Buy_Price : cell;
  SMA_10M : cell;
  SMA_20M : cell;
  Name : option string
}.

(** A row of "Alert_Log". *)
Record log_record := {
  User : option string;
  Stock : option string;
  YearMonth : option string;
  AlertType : option string
}.

(** What [load_sheets] returns; [user_map] is the dict of the user
    directory in its iteration order.  The handle [alert_log_sheet] is
    not a value here: appending to it is the event [AppendRow]. *)
Record sheets := {
  ath_data : list ath_row;
  user_map : list (string * user_info);
  active_data : list active_row;
  alert_log_data : list log_record
}.

(** [d[k]] for a dict kept as the list of its items. *)
Fixpoint dict_get {V} (d : list (string * V)) (k : string) : option V :=
  match d with
  | [] => None
  | (k', v) :: d' => if decide (k' = k) then Some v else dict_get d' k
  end.

(** The entry of [name] when [name in user_map]; a name that is [None]
    is no key of the dict. *)
Definition user_lookup (um : list (string * user_info)) (name : option string)
  : option user_info :=
  match name with
  | Some n => dict_get um n
  | None => None
  end.

(** ** Effects *)

Inductive event :=
| Telegram (chat_id message : string)
| Email (to subject message : string)
| AppendRow (row : list string)
| Sleep (seconds : nat).

(** The exceptions of the model, both subclasses of [Exception]: a
    missing dict key, and a failure of the sheets service. *)
Inductive exn :=
| KeyError (key : string)
| SheetError (what : string).

Inductive result (A : Type) :=
| Ok (a : A)
| Raised (e : exn).
Arguments Ok {A} a.
Arguments Raised {A} e.

Record state := {
  alert_counters : gmap string nat;
  trace : list event
}.

Definition M (A : Type) : Type := state → result A * state.

Definition ret {A} (a : A) : M A := λ s, (Ok a, s).

Definition bind {A B} (k : A → M B) (m : M A) : M B :=
  λ s, match m s with
       | (Ok a, s') => k a s'
       | (Raised e, s') => (Raised e, s')
       end.

Definition raise {A} (e : exn) : M A := λ s, (Raised e, s).

(** The notations [x ← m; k] and [m;; k] of stdpp, at [M]. *)
#[global] Instance M_ret : MRet M := @ret.
#[global] Instance M_bind : MBind M := @bind.

Definition emit (e : event) : M unit :=
  λ s, (Ok tt, {| alert_counters := alert_counters s; trace := trace s ++ [e] |}).

(** [alert_counters.get(key, 0)] *)
Definition counter_get (key : string) : M nat :=
  λ s, (Ok (default 0 (alert_counters s !! key)), s).

(** [alert_counters[key]], a KeyError when the key is absent. *)
Definition counter_index (key : string) : M nat :=
  λ s, match alert_counters s !! key with
       | Some n => (Ok n, s)
       | None => (Raised (KeyError key), s)
       end.

(** [alert_counters[key] = n] *)
Definition counter_set (key : string) (n : nat) : M unit :=
  λ s, (Ok tt, {| alert_counters := <[key := n]> (alert_counters s); trace := trace s |}).

(** [if c: m] *)
Definition when (c : bool) (m : M unit) : M unit := if c then m else ret tt.

(** [for x in l: body(x)]; an exception in the body leaves the loop. *)
Fixpoint for_each {A} (l : list A) (body : A → M unit) : M unit :=
  match l with
  | [] => ret tt
  | x :: l' => body x;; for_each l' body
  end.

(** [[f(x) for x in l]] where [f] may raise. *)
Fixpoint map_M {A B} (f : A → M B) (l : list A) : M (list B) :=
  match l with
  | [] => ret []
  | x :: l' => y ← f x; ys ← map_M f l'; ret (y :: ys)
  end.

(** ** The outside world of one scan *)

(** What [ticker.history(period="1d")] gives for one symbol: an
    exception of the provider, an empty frame, or a frame whose last
    close is [last_close]. *)
Inductive history :=
| HistError
| HistEmpty
| HistClose (last_close : float).

Record world := {
  (** [load_sheets()]: the sheets, or the exception it raises *)
  w_load_sheets : result sheets;
  (** [datetime.now()] at the start of the buy phase *)
  w_now : datetime;
  (** the market-data provider, by provider symbol; it answers the
      same way throughout one scan *)
  w_history : string → history;
  (** [alert_log_sheet.append_row(row)]: the exception it raises, if any *)
  w_append_row : list string → option exn;
  (** [datetime.now()] when a row is appended *)
  w_append_time : datetime
}.

Section Bot.

(** Three builtins of the Python runtime are parameters: [float(s)] on
    a string ([None] for a ValueError), [str(x)] on a float, as
    interpolated by f-strings, and [s.upper()] on a string. *)
Context (float_of_str : string → option float).
Context (str_of_float : float → string).
Context (str_upper : string → string).

(** [float(c)]; [None] stands for the TypeError, ValueError or
    OverflowError that the callers catch. *)
Definition py_float (c : cell) : option float :=
  match c with
  | CNone => None
  | CStr s => float_of_str s
  | CInt z => float_of_int z
  | CFloat f => Some f
  end.

(** *** Notification channels (main.py 35-46)

    Both senders catch their own exceptions: a send is one attempt. *)

Definition send_telegram_alert (chat_id message : string) : M unit :=
  emit (Telegram chat_id message).

Definition send_email_alert (email subject message : string) : M unit :=
  emit (Email email subject message).

(** *** Price fetcher (main.py 49-76) *)

(** What the thread of [fetch_price(symbol, out_q)] puts on the queue,
    if anything.  [symbol.upper()] stands before the [try] (main.py 50):
    for a symbol that is no string it raises an AttributeError that
    nothing catches, the thread ends and the queue gets no item
    ([None]).  Inside the [try], every outcome puts one item. *)
Definition fetch_price (hist : string → history) (symbol : cell)
  : option (string * option float) :=
  match symbol with
  | CStr symbol =>
      let yf_symbol := str_upper symbol +:+ ".NS" in
      match hist yf_symbol with
      | HistClose last_price => Some (symbol, Some last_price)
      | HistEmpty => Some (symbol, None)
      | HistError => Some (symbol, None)
      end
  | CNone | CInt _ | CFloat _ => None
  end.

(** The last loop of [get_prices]: the queue is emptied into a dict.
    Its keys are symbols that were put, hence strings. *)
Definition drain (out_q : list (string * option float)) : gmap string (option float) :=
  foldl (λ result item, <[item.1 := item.2]> result) ∅ out_q.

(** The threads put their items in any order: after the joins the queue
    holds a permutation of what the threads put. *)
Definition queue_of (hist : string → history) (symbols : list cell)
    (out_q : list (string * option float)) : Prop :=
  out_q ≡ₚ omap (fetch_price hist) symbols.

(** [get_prices(symbols)], with the threads finishing in the order they
    were started; [get_prices_any_order] below shows that the order
    does not change the dict. *)
Definition get_prices (hist : string → history) (symbols : list cell)
  : gmap string (option float) :=
  drain (omap (fetch_price hist) symbols).

(** [prices.get(stock)]: [None] for a missing key and for a [None]
    value.  The keys of [prices] are strings, and no int, float or
    [None] is equal to a string: such a [stock] is a missing key. *)
Definition prices_get (prices : gmap string (option float)) (stock : cell)
  : option float :=
  match stock with
  | CStr stock => prices !! stock ≫= id
  | CNone | CInt _ | CFloat _ => None
  end.

(** *** Alert log helpers (main.py 110-122) *)

Fixpoint buy_alert_sent_this_month (alert_log_data : list log_record)
    (user stock year_month : string) : bool :=
  match alert_log_data with
  | [] => false
  | record :: rest =>
      if bool_decide (User record = Some user)
         && bool_decide (Stock record = Some stock)
         && bool_decide (YearMonth record = Some year_month)
         && bool_decide (AlertType record = Some "buy")
      then true
      else buy_alert_sent_this_month rest user stock year_month
  end.

Definition append_row (w : world) (row : list string) : M unit :=
  match w_append_row w row with
  | Some e => raise e
  | None => emit (AppendRow row)
  end.

Definition log_buy_alert_month (w : world) (user stock year_month : string) : M unit :=
  append_row w [user; stock; year_month; "buy"; strftime_YmdHMS (w_append_time w)].

(** *** Buy phase (main.py 133-170) *)

Definition buy_alert_key (user_name stock : string) (ath_float : float) (today : string)
  : string :=
  "buy:" +:+ user_name +:+ ":" +:+ stock +:+ ":" +:+ str_of_float ath_float
  +:+ ":" +:+ today.

Definition buy_message (stock : string) (live_float ath_float : float) (prev_count : nat)
  : string :=
  "📈 *BUY ALERT* for " +:+ stock +:+ nl +:+ "Live: ₹" +:+ str_of_float live_float
  +:+ nl +:+ "ATH: ₹" +:+ str_of_float ath_float
  +:+ " (x" +:+ pretty (prev_count + 1) +:+ ")".

(** The body of [for user_name, user_info in user_map.items()]
    (main.py 152-170). *)
Definition buy_for_user (w : world) (alert_log_data : list log_record)
    (year_month today stock : string) (ath_float live_float : float)
    (user : string * user_info) : M unit :=
  let '(user_name, user_info) := user in
  let chat_id := telegram_id user_info in
  let email := email user_info in
  if buy_alert_sent_this_month alert_log_data user_name stock year_month then
    ret tt
  else if gtb live_float ath_float then
    let alert_key := buy_alert_key user_name stock ath_float today in
    prev_count ← counter_get alert_key;
    when (prev_count <? MAX_ALERTS_PER_TRIGGER)%nat (
      let msg := buy_message stock live_float ath_float prev_count in
      when (nonempty chat_id) (send_telegram_alert chat_id msg);;
      when (nonempty email) (send_email_alert email ("BUY ALERT for " +:+ stock) msg);;
      counter_set alert_key (prev_count + 1)
    );;
    count ← counter_index alert_key;
    when (count =? MAX_ALERTS_PER_TRIGGER)%nat
      (log_buy_alert_month w user_name stock year_month)
  else ret tt.

(** [row["Stock"]] *)
Definition index_Stock (row : ath_row) : M cell :=
  match ath_Stock row with
  | Some c => ret c
  | None => raise (KeyError "Stock")
  end.

(** The body of [for row in ath_data] (main.py 141-170).  A price that
    is found was found under a string key: from there on [stock] is
    that string. *)
Definition buy_for_row (w : world) (sh : sheets) (prices : gmap string (option float))
    (year_month today : string) (row : ath_row) : M unit :=
  stock ← index_Stock row;
  let ath := py_or (ATH_Current_Month row) (ATH row) in
  let live_price := prices_get prices stock in
  if negb (truthy stock) || negb (truthy ath) then ret tt
  else
    match live_price, stock with
    | Some live_price, CStr stock =>
        match py_float ath, py_float (CFloat live_price) with
        | Some ath_float, Some live_float =>
            for_each (user_map sh)
              (buy_for_user w (alert_log_data sh) year_month today stock
                 ath_float live_float)
        | _, _ => ret tt
        end
    | _, _ => ret tt
    end.

Definition buy_phase (w : world) (sh : sheets) : M unit :=
  let now := w_now w in
  let year_month := strftime_Ym now in
  cells ← map_M index_Stock (ath_data sh);
  let stock_symbols := filter (λ c, truthy c) cells in
  let prices := get_prices (w_history w) stock_symbols in
  for_each (ath_data sh) (buy_for_row w sh prices year_month (strftime_Ymd now)).

(** *** Sell phase (main.py 174-228) *)

(** The regime switch of main.py 205-214: [(sell_signal, sell_reason)]. *)
Definition sell_decision (live_price buy_price sma_10m sma_20m : float) : bool * string :=
  if (live_price <? buy_price * 2)%float then
    if (live_price <? sma_20m)%float && gtb sma_20m 0 then
      (true, "Price below 20M SMA (" +:+ str_of_float sma_20m +:+ ")")
    else (false, "")
  else
    if (live_price <? sma_10m)%float && gtb sma_10m 0 then
      (true, "Price below 10M SMA (" +:+ str_of_float sma_10m +:+ ")")
    else (false, "").

Definition sell_alert_key (user_name : option string) (stock sell_reason : string) : string :=
  "sell:" +:+ str_opt user_name +:+ ":" +:+ stock +:+ ":" +:+ sell_reason.

Definition sell_message (stock : string) (live_price buy_price : float)
    (sell_reason : string) (prev_count : nat) : string :=
  "🚨 *SELL ALERT* for " +:+ stock +:+ nl +:+ "Live: ₹" +:+ str_of_float live_price
  +:+ nl +:+ "Buy Price: ₹" +:+ str_of_float buy_price +:+ nl +:+ sell_reason
  +:+ " (x" +:+ pretty (prev_count + 1) +:+ ")".

(** main.py 200-228: the holding of [user_name] in [stock], once its
    numbers are parsed. *)
Definition sell_for_holding (um : list (string * user_info)) (user_name : option string)
    (stock : string) (live_price buy_price sma_10m sma_20m : float) : M unit :=
  let chat_id := from_option telegram_id "" (user_lookup um user_name) in
  let email := from_option email "" (user_lookup um user_name) in
  let '(sell_signal, sell_reason) := sell_decision live_price buy_price sma_10m sma_20m in
  when sell_signal (
    let alert_key := sell_alert_key user_name stock sell_reason in
    prev_count ← counter_get alert_key;
    when (prev_count <? MAX_ALERTS_PER_TRIGGER)%nat (
      let msg := sell_message stock live_price buy_price sell_reason prev_count in
      when (nonempty chat_id) (send_telegram_alert chat_id msg);;
      when (nonempty email) (send_email_alert email ("SELL ALERT for " +:+ stock) msg);;
      counter_set alert_key (prev_count + 1)
    )
  ).

(** The body of [for row in active_data] (main.py 181-228).  As in the
    buy phase, a price that is found makes [stock] a string. *)
Definition sell_for_row (um : list (string * user_info))
    (ah_prices : gmap string (option float)) (row : active_row) : M unit :=
  match act_Stock row with
  | None => ret tt
  | Some stock =>
      if negb (truthy stock) then ret tt
      else
        match py_float (Buy_Price row) with
        | None => ret tt
        | Some buy_price =>
            match prices_get ah_prices stock, stock with
            | Some live_price, CStr stock =>
                match py_float (py_or (SMA_10M row) (CInt 0)),
                      py_float (py_or (SMA_20M row) (CInt 0)) with
                | Some sma_10m, Some sma_20m =>
                    sell_for_holding um (Name row) stock live_price buy_price
                      sma_10m sma_20m
                | _, _ => ret tt
                end
            | _, _ => ret tt
            end
        end
  end.

Definition sell_phase (w : world) (sh : sheets) : M unit :=
  let ah_symbols :=
    omap (λ row, match act_Stock row with
                 | Some c => if truthy c then Some c else None
                 | None => None
                 end) (active_data sh) in
  let ah_prices := get_prices (w_history w) ah_symbols in
  for_each (active_data sh) (sell_for_row (user_map sh) ah_prices).

(** *** The scan loop (main.py 124-238) *)

Definition load_sheets (w : world) : M sheets := λ s, (w_load_sheets w, s).

(** The body of the [try] (main.py 131-230). *)
Definition cycle (w : world) : M unit :=
  sh ← load_sheets w;
  buy_phase w sh;;
  sell_phase w sh.

(** One turn of [while True]: the [try] block, [except Exception]
    that swallows what it raised, then [time.sleep(CHECK_INTERVAL)]. *)
Definition scan (w : world) (s : state) : state :=
  let s' := match cycle w s with
            | (Ok _, s') => s'
            | (Raised _, s') => s'
            end in
  (emit (Sleep CHECK_INTERVAL) s').2.

(** The first turns of [main_loop], one per world of [ws]. *)
Definition main_loop (ws : list world) (s : state) : state :=
  foldl (λ s w, scan w s) s ws.

(** The state of a fresh process: [alert_counters = {}]. *)
Definition init : state := {| alert_counters := ∅; trace := [] |}.

(** ** Observations of a trace *)

Definition is_notification (e : event) : bool :=
  match e with
  | Telegram _ _ | Email _ _ _ => true
  | _ => false
  end.

(** The notifications sent, oldest first. *)
Definition notifications (tr : list event) : list event := filter is_notification tr.

(** The rows appended to the alert log, oldest first. *)
Definition rows_appended (tr : list event) : list (list string) :=
  omap (λ e, match e with AppendRow row => Some row | _ => None end) tr.

Definition is_sleep (e : event) : bool :=
  match e with
  | Sleep _ => true
  | _ => false
  end.

(** How many times the scan loop went to sleep. *)
Definition sleeps (tr : list event) : nat := length (filter is_sleep tr).

Definition capped (s : state) : Prop :=
  ∀ k, (default 0 (alert_counters s !! k) ≤ MAX_ALERTS_PER_TRIGGER)%nat.

(** *** Relations between the state before and after a computation *)

(** [m] takes every state to an [R]-related one, whether it returns or
    raises. *)
Definition respects (R : relation state) {A} (m : M A) : Prop :=
  ∀ s, R s (m s).2.

(** The cap is kept. *)
Definition keeps_cap : relation state := λ s s', capped s → capped s'.

(** States that agree on an observation of the trace. *)
Definition same {X} (obs : list event → X) : relation state :=
  λ s s', obs (trace s') = obs (trace s).

(** The sends of one alert: the IM post when there is a handle, then the
    mail when there is an address. *)
Definition dispatch (chat_id email subject msg : string) : list event :=
  (if nonempty chat_id then [Telegram chat_id msg] else [])
  ++ (if nonempty email then [Email email subject msg] else []).

(** The requested symbols that are strings, in their order. *)
Definition text_of (c : cell) : option string :=
  match c with
  | CStr s => Some s
  | CNone | CInt _ | CFloat _ => None
  end.

Definition text_symbols (symbols : list cell) : list string := omap text_of symbols.

(** ** Scenario data

    Stand-ins for the builtins, and the sheets, clock and market of the
    scenarios that the properties below are run on. *)

Definition upper_ascii (c : ascii) : ascii :=
  let n := nat_of_ascii c in
  if (97 <=? n)%nat && (n <=? 122)%nat then ascii_of_nat (n - 32) else c.

(** [s.upper()] on ASCII text. *)
Fixpoint upper_demo (s : string) : string :=
  match s with
  | EmptyString => EmptyString
  | String c s' => String (upper_ascii c) (upper_demo s')
  end.

(** A rendering of floats that agrees with Python's [str] on the whole
    numbers below 10^16; other finite floats are printed as mantissa
    and binary exponent. *)
Definition str_demo (f : float) : string :=
  match Prim2SF f with
  | S754_zero s => (if s then "-" else "") +:+ "0.0"
  | S754_infinity s => (if s then "-" else "") +:+ "inf"
  | S754_nan => "nan"
  | S754_finite s m e =>
      (if s then "-" else "")
      +:+ (if (0 <=? e)%Z then pretty (Z.pos m * 2 ^ e)%Z +:+ ".0"
           else if (Z.pos m mod 2 ^ (- e) =? 0)%Z
                then pretty (Z.pos m / 2 ^ (- e))%Z +:+ ".0"
                else pretty (Z.pos m) +:+ "*2^" +:+ pretty e)
  end.

Fixpoint digits_value (s : string) (acc : Z) : option Z :=
  match s with
  | EmptyString => Some acc
  | String c s' =>
      match Ascii.is_nat c with
      | Some n => digits_value s' (10 * acc + Z.of_nat n)%Z
      | None => None
      end
  end.

(** [float(s)] on the strings of decimal digits; other strings are
    refused. *)
Definition float_of_str_demo (s : string) : option float :=
  if nonempty s then digits_value s 0 ≫= float_of_int else None.

(** An injective rendering of floats: the code of the sign, mantissa
    and exponent, in decimal. *)
Definition sf_code (x : spec_float) : bool + bool + unit + bool * positive * Z :=
  match x with
  | S754_zero s => inl (inl (inl s))
  | S754_infinity s => inl (inl (inr s))
  | S754_nan => inl (inr tt)
  | S754_finite s m e => inr (s, m, e)
  end.

Definition str_code (f : float) : string := pretty (encode (sf_code (Prim2SF f))).

Definition now_demo : datetime :=
  {| dt_year := 2024; dt_month := 5; dt_day := 7;
     dt_hour := 9; dt_minute := 30; dt_second := 0 |}.

(** A user with both contact methods, and one with none. *)
Definition user_U : string * user_info :=
  ("U", {| telegram_id := "42"; email := "u@example.org" |}).
Definition user_Q : string * user_info :=
  ("Q", {| telegram_id := ""; email := "" |}).

(** The provider knows AAA (last close 105) and HHH (150); CCC comes
    back empty and every other lookup raises. *)
Definition market_demo (yf_symbol : string) : history :=
  if decide (yf_symbol = "AAA.NS") then HistClose 105
  else if decide (yf_symbol = "HHH.NS") then HistClose 150
  else if decide (yf_symbol = "CCC.NS") then HistEmpty
  else HistError.

Definition watch_AAA : ath_row :=
  {| ath_Stock := Some (CStr "AAA"); ATH_Current_Month := CNone; ATH := CInt 100 |}.

(** A holding of U bought at 100, with a 20M average of [sma_20m]. *)
Definition holding_HHH (sma_20m : Z) : active_row :=
  {| act_Stock := Some (CStr "HHH"); Buy_Price := CInt 100;
     SMA_10M := CStr ""; SMA_20M := CInt sma_20m; Name := Some "U" |}.

(** The watch list {AAA: ATH 100}, the user U and an empty alert log. *)
Definition sheets_AAA : sheets :=
  {| ath_data := [watch_AAA]; user_map := [user_U];
     active_data := []; alert_log_data := [] |}.

(** The same with AAA listed on two rows. *)
Definition sheets_AAA_twice : sheets :=
  {| ath_data := [watch_AAA; watch_AAA]; user_map := [user_U];
     active_data := []; alert_log_data := [] |}.

Definition sheets_HHH (sma_20m : Z) : sheets :=
  {| ath_data := []; user_map := [user_U];
     active_data := [holding_HHH sma_20m]; alert_log_data := [] |}.

Definition world_of (sh : result sheets) : world :=
  {| w_load_sheets := sh; w_now := now_demo; w_history := market_demo;
     w_append_row := λ _, None; w_append_time := now_demo |}.

Definition world_AAA : world := world_of (Ok sheets_AAA).

(** The sheets cannot be read. *)
Definition world_down : world := world_of (Raised (SheetError "APIError")).

(** The alert log cannot be written. *)
Definition world_readonly : world :=
  {| w_load_sheets := Ok sheets_AAA; w_now := now_demo; w_history := market_demo;
     w_append_row := λ _, Some (SheetError "APIError"); w_append_time := now_demo |}.

(** The buy record of (U, AAA, 2024-05). *)
Definition record_U_AAA : log_record :=
  {| User := Some "U"; Stock := Some "AAA"; YearMonth := Some "2024-05";
     AlertType := Some "buy" |}.

(** A state whose only counter is [key], at [n]. *)
Definition counting (key : string) (n : nat) : state :=
  {| alert_counters := {[ key := n ]}; trace := [] |}.

(** ** Further observations *)

(** The state only grows: no counter goes down, no key is dropped and
    the trace is extended. *)
Definition grows : relation state := λ s s',
  (∀ k, default 0 (alert_counters s !! k) ≤ default 0 (alert_counters s' !! k))
  ∧ dom (alert_counters s) ⊆ dom (alert_counters s')
  ∧ trace s `prefix_of` trace s'.

(** The alerts counted so far, over all keys. *)
Definition total (m : gmap string nat) : nat :=
  sum_list (snd <$> map_to_list m).

(** Every notification is paid for by a counter. *)
Definition accounted (s : state) : Prop :=
  length (notifications (trace s)) ≤ 2 * total (alert_counters s).

Definition keeps_accounted : relation state := λ s s', accounted s → accounted s'.

(** Every exception that [m] raises satisfies [P]. *)
Definition raises_only (P : exn → Prop) {A} (m : M A) : Prop :=
  ∀ s e s', m s = (Raised e, s') → P e.

(** The string has no colon, the separator of the alert keys. *)
Fixpoint no_colon (s : string) : bool :=
  match s with
  | EmptyString => true
  | String c s' => negb (Ascii.eqb c ":") && no_colon s'
  end.

(** The counters of the keys outside [P] are the same. *)
Definition only_keys (P : string → Prop) : relation state := λ s s',
  ∀ key, ¬ P key → alert_counters s' !! key = alert_counters s !! key.

(** The keys of the buy alerts and of the sell alerts. *)
Definition is_buy_key (key : string) : Prop := ∃ rest, key = "buy:" +:+ rest.
Definition is_sell_key (key : string) : Prop := ∃ rest, key = "sell:" +:+ rest.

(** ** The user directory (main.py 99-106)

    [load_sheets] turns the rows of "UserDirectory" into the dict
    [user_map].  [s.strip()] is a fourth builtin, the parameter
    [str_strip] of this part. *)

(** A row of "UserDirectory". *)
Record user_row := {
  dir_Name : option string;
  dir_Telegram_ID : cell;
  dir_Email : cell
}.

(** [str(c)] *)
Definition py_str (c : cell) : string :=
  match c with
  | CNone => "None"
  | CStr s => s
  | CInt z => pretty z
  | CFloat f => str_of_float f
  end.

Section Directory.
Context (str_strip : string → string).

(** [u.get("Email", "").strip()]: the default stands for a missing
    column; a number has no [strip] (AttributeError, [None]). *)
Definition email_of (c : cell) : option string :=
  match c with
  | CNone => Some (str_strip "")
  | CStr s => Some (str_strip s)
  | CInt _ | CFloat _ => None
  end.

(** [d[k] = v] on a dict kept as the list of its items: the value of an
    old key is replaced where it stands, a new key goes last. *)
Fixpoint dict_set {V} (d : list (string * V)) (k : string) (v : V)
  : list (string * V) :=
  match d with
  | [] => [(k, v)]
  | (k', v') :: d' =>
      if decide (k' = k) then (k, v) :: d' else (k', v') :: dict_set d' k v
  end.

(** The entry that the row [u] gets, when its Email cell is text. *)
Definition user_entry (u : user_row) : option user_info :=
  match email_of (dir_Email u) with
  | Some e =>
      Some {| telegram_id := py_str (py_or (dir_Telegram_ID u) (CStr ""));
              email := e |}
  | None => None
  end.

(** [for u in user_data: if u.get("Name"): user_map[u["Name"]] = {...}],
    from the dict [user_map]; [None] when a row raises. *)
Fixpoint add_users (user_map : list (string * user_info)) (user_data : list user_row)
  : option (list (string * user_info)) :=
  match user_data with
  | [] => Some user_map
  | u :: rest =>
      match dir_Name u with
      | Some name =>
          if nonempty name then
            match user_entry u with
            | Some info => add_users (dict_set user_map name info) rest
            | None => None
            end
          else add_users user_map rest
      | None => add_users user_map rest
      end
  end.

(** The user lookup map of [load_sheets]. *)
Definition load_user_map (user_data : list user_row)
  : option (list (string * user_info)) :=
  add_users [] user_data.

End Directory.

(** ** More scenario data *)

(** ASCII white space, as [str.isspace] has it. *)
Definition is_space (c : ascii) : bool :=
  let n := nat_of_ascii c in
  (9 <=? n) && (n <=? 13) || (28 <=? n) && (n <=? 32).

Fixpoint lstrip (s : string) : string :=
  match s with
  | EmptyString => EmptyString
  | String c s' => if is_space c then lstrip s' else s
  end.

(** [s.strip()] on ASCII text. *)
Definition strip_demo (s : string) : string :=
  String.rev (lstrip (String.rev (lstrip s))).

(** A directory where U stands on two rows, with a row without a name
    between them. *)
Definition directory_demo : list user_row :=
  [ {| dir_Name := Some "U"; dir_Telegram_ID := CInt 42;
       dir_Email := CStr "old@example.org" |};
    {| dir_Name := Some ""; dir_Telegram_ID := CInt 7; dir_Email := CInt 0 |};
    {| dir_Name := Some "U"; dir_Telegram_ID := CStr "";
       dir_Email := CStr "  u@example.org " |} ].

(** The provider is down. *)
Definition world_market_down : world :=
  {| w_load_sheets := Ok sheets_AAA; w_now := now_demo;
     w_history := λ _, HistError;
     w_append_row := λ _, None; w_append_time := now_demo |}.

(** A watch list whose sheet has no Stock column, with a holding. *)
Definition sheets_no_stock_column : sheets :=
  {| ath_data := [{| ath_Stock := None; ATH_Current_Month := CNone; ATH := CInt 100 |}];
     user_map := [user_U]; active_data := [holding_HHH 160]; alert_log_data := [] |}.

(** The AAA scenario once the month of U is logged. *)
Definition sheets_AAA_logged : sheets :=
  {| ath_data := [watch_AAA]; user_map := [user_U];
     active_data := []; alert_log_data := [record_U_AAA] |}.

(** The provider knows the symbol 500325, with a last close of 105. *)
Definition market_500325 (yf_symbol : string) : history :=
  if decide (yf_symbol = "500325.NS") then HistClose 105 else HistError.

(** The watch list {500325: ATH 100} and a holding of U in 500325, with
    the Stock cell [stock] as it is read from the sheet. *)
Definition sheets_500325 (stock : cell) : sheets :=
  {| ath_data := [{| ath_Stock := Some stock; ATH_Current_Month := CNone;
                     ATH := CInt 100 |}];
     user_map := [user_U];
     active_data := [{| act_Stock := Some stock; Buy_Price := CInt 100;
                        SMA_10M := CStr ""; SMA_20M := CInt 160;
                        Name := Some "U" |}];
     alert_log_data := [] |}.

Definition world_500325 (stock : cell) : world :=
  {| w_load_sheets := Ok (sheets_500325 stock); w_now := now_demo;
     w_history := market_500325;
     w_append_row := λ _, None; w_append_time := now_demo |}.

(** * Properties *)

(** ** Float comparisons *)

Lemma SFcompare_antisym x y :
  SFcompare y x = CompOpp <$> SFcompare x y.
Proof.
  destruct x as [[]|[]| |[] mx ex], y as [[]|[]| |[] my ey]; simpl; try reflexivity.
  all: rewrite (Z.compare_antisym ey ex); destruct (ey ?= ex)%Z; simpl; try reflexivity.
  all: change (Pos.compare_cont Eq my mx) with (Pos.compare_cont (CompOpp Eq) my mx).
  all: rewrite <- (Pos.compare_cont_antisym mx my Eq).
  all: try rewrite CompOpp_involutive; reflexivity.
Qed.

Lemma SFcompare_refl x : SFcompare x x = None ∨ SFcompare x x = Some Eq.
Proof.
  destruct x as [[]|[]| |[] m e]; simpl; auto.
  all: rewrite Z.compare_refl; fold (Pos.compare m m); rewrite Pos.compare_refl; auto.
Qed.

Lemma float_ltb_irrefl (x : float) : (x <? x)%float = false.
Proof.
  rewrite FloatAxioms.ltb_spec. unfold SFltb.
  destruct (SFcompare_refl (Prim2SF x)) as [-> | ->]; reflexivity.
Qed.

Lemma float_eqb_not_ltb (x y : float) : (x =? y)%float = true → (y <? x)%float = false.
Proof.
  intros H. rewrite FloatAxioms.eqb_spec in H. rewrite FloatAxioms.ltb_spec. unfold SFeqb, SFltb in *.
  rewrite (SFcompare_antisym (Prim2SF x) (Prim2SF y)).
  destruct (SFcompare (Prim2SF x) (Prim2SF y)) as [[]|]; simpl; congruence.
Qed.

Lemma float_not_ltb_leb (x y : float) :
  is_nan x = false → is_nan y = false →
  (x <? y)%float = false ↔ (y <=? x)%float = true.
Proof.
  unfold is_nan. intros Hx Hy. rewrite FloatAxioms.eqb_spec in Hx, Hy.
  rewrite FloatAxioms.ltb_spec, FloatAxioms.leb_spec. unfold SFeqb, SFltb, SFleb in *.
  rewrite (SFcompare_antisym (Prim2SF x) (Prim2SF y)).
  destruct (Prim2SF x) as [[]|[]| |[] mx ex], (Prim2SF y) as [[]|[]| |[] my ey];
    simpl in *; try discriminate; try (split; congruence).
  all: destruct (ex ?= ey)%Z; simpl; try (split; congruence).
  all: destruct (Pos.compare_cont Eq mx my); simpl; split; congruence.
Qed.

(** ** An invariant rule for [M] *)

Section Respects.
Context (R : relation state).
Context (HR : PreOrder R).

Lemma respects_ret {A} (a : A) : respects R (ret a).
Proof. intros s. reflexivity. Qed.

Lemma respects_raise {A} (e : exn) : respects R (@raise A e).
Proof. intros s. reflexivity. Qed.

Lemma respects_bind {A B} (m : M A) (k : A → M B) :
  respects R m → (∀ a, respects R (k a)) → respects R (m ≫= k).
Proof.
  intros Hm Hk s. unfold mbind, M_bind, bind.
  specialize (Hm s). destruct (m s) as [[a|e] s1]; simpl in *.
  - etrans; [exact Hm | apply Hk].
  - exact Hm.
Qed.

Lemma respects_when (c : bool) (m : M unit) :
  (c = true → respects R m) → respects R (when c m).
Proof. destruct c; simpl; auto using respects_ret. Qed.

Lemma respects_counter_get key : respects R (counter_get key).
Proof. intros s. reflexivity. Qed.

Lemma respects_counter_index key : respects R (counter_index key).
Proof. intros s. unfold counter_index. destruct (_ !! _); reflexivity. Qed.

Lemma respects_load_sheets w : respects R (load_sheets w).
Proof. intros s. reflexivity. Qed.

Lemma respects_index_Stock row : respects R (index_Stock row).
Proof. unfold index_Stock. destruct (ath_Stock row); intros ?; reflexivity. Qed.

Lemma respects_for_each {A} (l : list A) (body : A → M unit) :
  (∀ x, respects R (body x)) → respects R (for_each l body).
Proof.
  intros Hb. induction l as [|x l IH]; simpl.
  - apply respects_ret.
  - apply respects_bind; auto.
Qed.

Lemma respects_map_M {A B} (f : A → M B) (l : list A) :
  (∀ x, respects R (f x)) → respects R (map_M f l).
Proof.
  intros Hf. induction l as [|x l IH]; simpl.
  - apply respects_ret.
  - apply respects_bind; [auto|]. intros y.
    apply respects_bind; [auto|]. intros ys. apply respects_ret.
Qed.

Ltac step :=
  lazy zeta;
  first
    [ apply respects_ret | apply respects_raise | apply respects_counter_get
    | apply respects_counter_index | apply respects_load_sheets
    | apply respects_index_Stock
    | apply respects_bind; [|intros ?]
    | apply respects_when; intros ?
    | apply respects_for_each; intros ?
    | apply respects_map_M; intros ? ].

(** What the sell phase does: it notifies, and it sets a counter to
    at most the cap. *)
Context (R_notify : ∀ e, is_notification e = true → respects R (emit e)).
Context (R_set : ∀ key n, (n ≤ MAX_ALERTS_PER_TRIGGER)%nat →
                          respects R (counter_set key n)).

Lemma respects_sell_for_holding um user_name stock live buy sma10 sma20 :
  respects R (sell_for_holding um user_name stock live buy sma10 sma20).
Proof.
  unfold sell_for_holding. destruct (sell_decision _ _ _ _) as [sig reason].
  repeat step; try (by apply R_notify).
  apply R_set. apply Nat.ltb_lt in H0. unfold MAX_ALERTS_PER_TRIGGER in *. lia.
Qed.

Lemma respects_sell_for_row um prices row :
  respects R (sell_for_row um prices row).
Proof.
  unfold sell_for_row.
  destruct (act_Stock row) as [stock|]; [|step].
  destruct (negb _); [step|].
  destruct (py_float (Buy_Price row)); [|step].
  destruct (prices_get _ _); [|step].
  destruct stock; try step.
  destruct (py_float _); [|step].
  destruct (py_float _); [|step].
  apply respects_sell_for_holding.
Qed.

Lemma respects_sell_phase w sh :
  respects R (sell_phase w sh).
Proof. unfold sell_phase. step. apply respects_sell_for_row. Qed.

(** The buy phase also appends rows to the alert log. *)
Context (R_append : ∀ row, respects R (emit (AppendRow row))).

Lemma respects_append_row w row : respects R (append_row w row).
Proof. unfold append_row. destruct (w_append_row w row); [step | apply R_append]. Qed.

Lemma respects_buy_for_user w log ym today stock ath live user :
  respects R (buy_for_user w log ym today stock ath live user).
Proof.
  destruct user as [user_name info]. unfold buy_for_user.
  destruct (buy_alert_sent_this_month _ _ _ _); [step|].
  destruct (gtb live ath); [|step].
  repeat step; try (by apply R_notify); try apply respects_append_row.
  apply R_set. apply Nat.ltb_lt in H. unfold MAX_ALERTS_PER_TRIGGER in *. lia.
Qed.

Lemma respects_buy_for_row w sh prices ym today row :
  respects R (buy_for_row w sh prices ym today row).
Proof.
  unfold buy_for_row. step; [step|].
  destruct (_ || _); [step|].
  destruct (prices_get _ _); [|step].
  match goal with |- context [match ?c with CStr _ => _ | _ => _ end] => destruct c end;
    try step.
  destruct (py_float _); [|step]. simpl.
  step. apply respects_buy_for_user.
Qed.

Lemma respects_buy_phase w sh :
  respects R (buy_phase w sh).
Proof.
  unfold buy_phase. step; [step; step|].
  step. apply respects_buy_for_row.
Qed.

Lemma respects_cycle w : respects R (cycle w).
Proof.
  unfold cycle. step; [step|].
  step; [apply respects_buy_phase | apply respects_sell_phase].
Qed.
End Respects.

(** *** Instances of the rule *)

Lemma keeps_cap_preorder : PreOrder keeps_cap.
Proof. split; [intros s; exact id | intros s1 s2 s3 H1 H2 H; auto]. Qed.

Lemma keeps_cap_emit e : respects keeps_cap (emit e).
Proof. intros s H. exact H. Qed.

Lemma keeps_cap_counter_set key n :
  (n ≤ MAX_ALERTS_PER_TRIGGER)%nat → respects keeps_cap (counter_set key n).
Proof.
  intros Hn s Hs k. simpl.
  destruct (decide (key = k)) as [->|Hne].
  - rewrite lookup_insert_eq. exact Hn.
  - rewrite lookup_insert_ne by done. apply Hs.
Qed.

Lemma capped_cycle w s :
  capped s → capped (cycle w s).2.
Proof.
  apply (respects_cycle keeps_cap keeps_cap_preorder);
    auto using keeps_cap_emit, keeps_cap_counter_set.
Qed.

Lemma capped_scan w s : capped s → capped (scan w s).
Proof.
  intros Hs. unfold scan. pose proof (capped_cycle w s Hs) as H.
  destruct (cycle w s) as [[[]|e] s1]; exact H.
Qed.

Lemma capped_main_loop ws s :
  capped s → capped (main_loop ws s).
Proof.
  revert s. induction ws as [|w ws IH]; intros s Hs; simpl; [done|].
  apply IH, capped_scan, Hs.
Qed.

Lemma capped_init : capped init.
Proof.
  intros k. unfold init. simpl. rewrite lookup_empty. simpl.
  unfold MAX_ALERTS_PER_TRIGGER. lia.
Qed.

Lemma same_preorder {X} (obs : list event → X) : PreOrder (same obs).
Proof. split; [by intros s | intros s1 s2 s3; unfold same; congruence]. Qed.

Lemma same_counter_set {X} (obs : list event → X) key n :
  respects (same obs) (counter_set key n).
Proof. by intros s. Qed.

Lemma rows_appended_app tr1 tr2 :
  rows_appended (tr1 ++ tr2) = rows_appended tr1 ++ rows_appended tr2.
Proof. apply omap_app. Qed.

Lemma notifications_app tr1 tr2 :
  notifications (tr1 ++ tr2) = notifications tr1 ++ notifications tr2.
Proof. apply filter_app. Qed.

Lemma sleeps_app tr1 tr2 : sleeps (tr1 ++ tr2) = (sleeps tr1 + sleeps tr2)%nat.
Proof. unfold sleeps. by rewrite filter_app, length_app. Qed.

Lemma same_rows_emit e :
  is_notification e = true → respects (same rows_appended) (emit e).
Proof.
  intros He s. unfold same. simpl. rewrite rows_appended_app.
  destruct e; try discriminate; simpl; by rewrite app_nil_r.
Qed.

Lemma same_sleeps_emit e :
  is_sleep e = false → respects (same sleeps) (emit e).
Proof.
  intros He s. unfold same. simpl. rewrite sleeps_app.
  destruct e; try discriminate; unfold sleeps; simpl; lia.
Qed.

Lemma buy_alert_sent_this_month_true log user stock ym :
  buy_alert_sent_this_month log user stock ym = true ↔
  ∃ r, r ∈ log ∧ User r = Some user ∧ Stock r = Some stock
       ∧ YearMonth r = Some ym ∧ AlertType r = Some "buy".
Proof.
  induction log as [|r log IH]; simpl.
  - split; [discriminate | intros (r & Hr & _); by apply elem_of_nil in Hr].
  - destruct (bool_decide (User r = Some user) && bool_decide (Stock r = Some stock)
              && bool_decide (YearMonth r = Some ym)
              && bool_decide (AlertType r = Some "buy")) eqn:E.
    + split; [intros _|done]. exists r.
      rewrite !andb_true_iff, !bool_decide_eq_true in E.
      destruct E as [[[? ?] ?] ?]. split; [left|done].
    + rewrite IH. split.
      * intros (r' & Hr' & H). exists r'. split; [by right | done].
      * intros (r' & Hr' & H1 & H2 & H3 & H4).
        apply elem_of_cons in Hr' as [->|Hr']; [|by exists r'].
        rewrite !andb_false_iff, !bool_decide_eq_false in E.
        destruct E as [[[E|E]|E]|E]; congruence.
Qed.

Lemma buy_for_user_below w log ym today stock ath live user s :
  gtb live ath = false →
  buy_for_user w log ym today stock ath live user s = (Ok tt, s).
Proof.
  intros H. destruct user as [user_name info]. unfold buy_for_user.
  rewrite H. by destruct (buy_alert_sent_this_month _ _ _ _).
Qed.

Lemma buy_for_user_blocked w log ym today stock ath live user_name info s :
  buy_alert_sent_this_month log user_name stock ym = true →
  buy_for_user w log ym today stock ath live (user_name, info) s = (Ok tt, s).
Proof. intros H. unfold buy_for_user. by rewrite H. Qed.

Lemma buy_for_user_fired w log ym today stock ath live user_name info s :
  let key := buy_alert_key user_name stock ath today in
  let c := default 0 (alert_counters s !! key) in
  buy_alert_sent_this_month log user_name stock ym = false →
  gtb live ath = true →
  (c < MAX_ALERTS_PER_TRIGGER)%nat →
  buy_for_user w log ym today stock ath live (user_name, info) s =
    when (c + 1 =? MAX_ALERTS_PER_TRIGGER)%nat
      (log_buy_alert_month w user_name stock ym)
      {| alert_counters := <[key := c + 1]> (alert_counters s);
         trace := trace s ++ dispatch (telegram_id info) (email info)
                    ("BUY ALERT for " +:+ stock)
                    (buy_message stock live ath c) |}.
Proof.
  intros key c Hlog Hgt Hc. unfold buy_for_user. rewrite Hlog, Hgt.
  fold key. unfold mbind, M_bind, bind, counter_get. simpl. fold c.
  apply Nat.ltb_lt in Hc. rewrite Hc. unfold dispatch, when, send_telegram_alert,
    send_email_alert, mbind, M_bind, bind, emit, ret, counter_set, counter_index.
  destruct (nonempty (telegram_id info)), (nonempty (email info)); simpl;
    rewrite lookup_insert_eq; simpl; rewrite <- ?app_assoc, ?app_nil_r; reflexivity.
Qed.

Lemma buy_for_user_at_cap w log ym today stock ath live user_name info s c :
  let key := buy_alert_key user_name stock ath today in
  buy_alert_sent_this_month log user_name stock ym = false →
  gtb live ath = true →
  alert_counters s !! key = Some c →
  (MAX_ALERTS_PER_TRIGGER ≤ c)%nat →
  buy_for_user w log ym today stock ath live (user_name, info) s =
    when (c =? MAX_ALERTS_PER_TRIGGER)%nat
      (log_buy_alert_month w user_name stock ym) s.
Proof.
  intros key Hlog Hgt Hk Hc. unfold buy_for_user. rewrite Hlog, Hgt.
  fold key. unfold mbind, M_bind, bind, counter_get, counter_index. simpl.
  rewrite Hk. simpl.
  apply Nat.ltb_ge in Hc. rewrite Hc. simpl. rewrite Hk. reflexivity.
Qed.

Lemma sell_for_holding_quiet um user_name stock live buy sma10 sma20 s :
  (sell_decision live buy sma10 sma20).1 = false →
  sell_for_holding um user_name stock live buy sma10 sma20 s = (Ok tt, s).
Proof.
  intros H. unfold sell_for_holding.
  destruct (sell_decision _ _ _ _) as [sig reason]. simpl in H. by subst sig.
Qed.

Lemma sell_for_holding_fired um user_name stock live buy sma10 sma20 s :
  let reason := (sell_decision live buy sma10 sma20).2 in
  let key := sell_alert_key user_name stock reason in
  let c := default 0 (alert_counters s !! key) in
  (sell_decision live buy sma10 sma20).1 = true →
  (c < MAX_ALERTS_PER_TRIGGER)%nat →
  sell_for_holding um user_name stock live buy sma10 sma20 s =
    (Ok tt,
     {| alert_counters := <[key := c + 1]> (alert_counters s);
        trace := trace s ++ dispatch
                   (from_option telegram_id "" (user_lookup um user_name))
                   (from_option email "" (user_lookup um user_name))
                   ("SELL ALERT for " +:+ stock)
                   (sell_message stock live buy reason c) |}).
Proof.
  intros reason key c Hsig Hc. unfold sell_for_holding.
  subst reason key c. destruct (sell_decision _ _ _ _) as [sig reason].
  simpl in *. subst sig. simpl.
  unfold mbind, M_bind, bind, counter_get. simpl.
  apply Nat.ltb_lt in Hc. rewrite Hc. unfold dispatch, when, send_telegram_alert,
    send_email_alert, mbind, M_bind, bind, emit, ret, counter_set.
  destruct (nonempty (from_option telegram_id "" _)),
    (nonempty (from_option email "" _)); simpl;
    rewrite <- ?app_assoc, ?app_nil_r; reflexivity.
Qed.

Lemma sell_for_holding_at_cap um user_name stock live buy sma10 sma20 s :
  let reason := (sell_decision live buy sma10 sma20).2 in
  let key := sell_alert_key user_name stock reason in
  (MAX_ALERTS_PER_TRIGGER ≤ default 0 (alert_counters s !! key))%nat →
  sell_for_holding um user_name stock live buy sma10 sma20 s = (Ok tt, s).
Proof.
  intros reason key Hc. unfold sell_for_holding.
  subst reason key. destruct (sell_decision _ _ _ _) as [[] reason]; [|reflexivity].
  simpl in *. unfold mbind, M_bind, bind, counter_get. simpl.
  apply Nat.ltb_ge in Hc. by rewrite Hc.
Qed.

(** ** The price fetcher *)

Lemma fetch_price_symbol hist symbol item :
  fetch_price hist symbol = Some item → symbol = CStr item.1.
Proof.
  unfold fetch_price. destruct symbol as [|sym|z|f]; try done.
  destruct (hist _); intros [= <-]; reflexivity.
Qed.

(** The thread of a string always puts one item, under that string. *)
Lemma fetch_price_str hist symbol :
  ∃ p, fetch_price hist (CStr symbol) = Some (symbol, p).
Proof. unfold fetch_price. destruct (hist _); by eexists. Qed.

Lemma drain_lookup_acc (out_q : list (string * option float))
    (acc : gmap string (option float)) symbol price :
  (∀ p, (symbol, p) ∈ out_q → p = price) →
  (∃ p, (symbol, p) ∈ out_q) ∨ acc !! symbol = Some price →
  foldl (λ result item, <[item.1 := item.2]> result) acc out_q !! symbol = Some price.
Proof.
  revert acc. induction out_q as [|[sym p] q IH]; intros acc Hsame Hin; simpl.
  - destruct Hin as [[p Hp]|H]; [by apply elem_of_nil in Hp | done].
  - apply IH.
    + intros p' Hp'. apply Hsame. by right.
    + destruct (decide (sym = symbol)) as [->|Hne].
      * right. rewrite lookup_insert_eq. f_equal. apply Hsame. by left.
      * destruct Hin as [[p' Hp']|H].
        -- apply elem_of_cons in Hp' as [Heq|Hp']; [congruence|]. left. by exists p'.
        -- right. by rewrite lookup_insert_ne.
Qed.

Lemma drain_lookup_other (out_q : list (string * option float))
    (acc : gmap string (option float)) symbol :
  symbol ∉ out_q.*1 →
  foldl (λ result item, <[item.1 := item.2]> result) acc out_q !! symbol = acc !! symbol.
Proof.
  revert acc. induction out_q as [|[sym p] q IH]; intros acc Hnot; simpl; [done|].
  simpl in Hnot. apply not_elem_of_cons in Hnot as [Hne Hnot].
  rewrite IH by done. by rewrite lookup_insert_ne.
Qed.

Lemma elem_of_text_symbols symbols symbol :
  symbol ∈ text_symbols symbols ↔ CStr symbol ∈ symbols.
Proof.
  unfold text_symbols. rewrite list_elem_of_omap. split.
  - intros (c & Hc & Heq). destruct c; try done. simpl in Heq. by injection Heq as ->.
  - intros H. by exists (CStr symbol).
Qed.

Lemma queue_of_elem hist symbols out_q symbol p :
  queue_of hist symbols out_q →
  (symbol, p) ∈ out_q
  ↔ CStr symbol ∈ symbols ∧ fetch_price hist (CStr symbol) = Some (symbol, p).
Proof.
  unfold queue_of. intros ->. rewrite list_elem_of_omap. split.
  - intros (c & Hc & Heq). pose proof (fetch_price_symbol _ _ _ Heq) as ->.
    by split.
  - intros [Hs Heq]. by exists (CStr symbol).
Qed.

Lemma drain_queue hist symbols out_q symbol p :
  queue_of hist symbols out_q → CStr symbol ∈ symbols →
  fetch_price hist (CStr symbol) = Some (symbol, p) →
  drain out_q !! symbol = Some p.
Proof.
  intros Hq Hs Hp. unfold drain. apply drain_lookup_acc.
  - intros p' Hp'. apply (queue_of_elem _ _ _ _ _ Hq) in Hp' as [_ Hp'].
    rewrite Hp in Hp'. by injection Hp'.
  - left. exists p. by apply (queue_of_elem _ _ _ _ _ Hq).
Qed.


(** ** From rows to parsed values *)

(** A watch-list row with a symbol, a reference and a live price that
    parse is evaluated for every user of the directory, in its order. *)
Lemma buy_for_row_parsed w sh prices ym today row stock ath_float live_float s :
  ath_Stock row = Some (CStr stock) →
  nonempty stock = true →
  truthy (py_or (ATH_Current_Month row) (ATH row)) = true →
  py_float (py_or (ATH_Current_Month row) (ATH row)) = Some ath_float →
  prices_get prices (CStr stock) = Some live_float →
  buy_for_row w sh prices ym today row s
  = for_each (user_map sh)
      (buy_for_user w (alert_log_data sh) ym today stock ath_float live_float) s.
Proof.
  intros Hs Hn Ht Hp Hl. unfold buy_for_row, index_Stock. rewrite Hs.
  unfold mbind, M_bind, bind, ret. cbn [truthy]. by rewrite Hn, Ht, Hl, Hp.
Qed.

(** A holding whose numbers parse is evaluated by [sell_for_holding]. *)
Lemma sell_for_row_parsed um prices row stock buy_price live_price sma_10m sma_20m s :
  act_Stock row = Some (CStr stock) →
  nonempty stock = true →
  py_float (Buy_Price row) = Some buy_price →
  prices_get prices (CStr stock) = Some live_price →
  py_float (py_or (SMA_10M row) (CInt 0)) = Some sma_10m →
  py_float (py_or (SMA_20M row) (CInt 0)) = Some sma_20m →
  sell_for_row um prices row s
  = sell_for_holding um (Name row) stock live_price buy_price sma_10m sma_20m s.
Proof.
  intros Hs Hn Hb Hl H10 H20. unfold sell_for_row. rewrite Hs. cbn [truthy].
  by rewrite Hn, Hb, Hl, H10, H20.
Qed.

(** A symbol without a price is skipped by both phases. *)
Lemma no_price_is_skipped w sh um prices ym today stock s :
  prices_get prices stock = None →
  (∀ row, ath_Stock row = Some stock →
          buy_for_row w sh prices ym today row s = (Ok tt, s))
  ∧ (∀ row, act_Stock row = Some stock →
            sell_for_row um prices row s = (Ok tt, s)).
Proof.
  intros Hl. split; intros row Hs.
  - unfold buy_for_row, index_Stock. rewrite Hs.
    unfold mbind, M_bind, bind, ret. rewrite Hl. by destruct (_ || _).
  - unfold sell_for_row. rewrite Hs, Hl.
    destruct (negb _); [done|]. by destruct (py_float _).
Qed.

Lemma notifications_dispatch chat_id email subject msg :
  notifications (dispatch chat_id email subject msg)
  = dispatch chat_id email subject msg.
Proof. unfold dispatch. by destruct (nonempty chat_id), (nonempty email). Qed.

Lemma log_keeps b w user stock ym s :
  let s' := (when b (log_buy_alert_month w user stock ym) s).2 in
  alert_counters s' = alert_counters s
  ∧ notifications (trace s') = notifications (trace s).
Proof.
  unfold when, log_buy_alert_month, append_row.
  destruct b; [|done]. destruct (w_append_row _ _); simpl; [done|].
  split; [done|]. rewrite notifications_app. simpl. by rewrite app_nil_r.
Qed.

(** ** The claims *)

(** C2. A buy record of the alert log, as read at the start of the
    scan, for (user, stock, year-month) makes the buy evaluation of that
    user and stock a no-op: nothing is sent and no counter changes,
    whatever the live price, also above the ATH. *)
Theorem suppression_record_blocks_buy w log ym today stock ath live user_name info s :
  (∃ r, r ∈ log ∧ User r = Some user_name ∧ Stock r = Some stock
        ∧ YearMonth r = Some ym ∧ AlertType r = Some "buy") →
  buy_for_user w log ym today stock ath live (user_name, info) s
  = (Ok tt, s).
Proof.
  intros H. apply buy_for_user_blocked.
  by apply buy_alert_sent_this_month_true.
Qed.

(** C3. A key whose counter is at [MAX_ALERTS_PER_TRIGGER] = 5: a
    further trigger of a buy key sends nothing on either channel and
    leaves every counter as it is; a further trigger of a sell key does
    nothing at all; and from a fresh process no counter ever exceeds 5,
    however many scans are made and whatever they read. *)
Theorem capped_key_is_silent :
  MAX_ALERTS_PER_TRIGGER = 5
  ∧ (∀ w log ym today stock ath live user_name info s,
       alert_counters s !! buy_alert_key user_name stock ath today
         = Some MAX_ALERTS_PER_TRIGGER →
       let s' := (buy_for_user w log ym today stock ath live
                    (user_name, info) s).2 in
       notifications (trace s') = notifications (trace s)
       ∧ alert_counters s' = alert_counters s)
  ∧ (∀ um user_name stock live buy sma10 sma20 s,
       alert_counters s !! sell_alert_key user_name stock
           (sell_decision live buy sma10 sma20).2
         = Some MAX_ALERTS_PER_TRIGGER →
       sell_for_holding um user_name stock live buy sma10 sma20 s
       = (Ok tt, s))
  ∧ (∀ ws key,
       default 0 (alert_counters (main_loop ws init) !! key)
       ≤ MAX_ALERTS_PER_TRIGGER).
Proof.
  split; [reflexivity|]. split; [|split].
  - intros w log ym today stock ath live user_name info s Hk. lazy zeta.
    destruct (buy_alert_sent_this_month log user_name stock ym) eqn:Hlog.
    { by rewrite buy_for_user_blocked. }
    destruct (gtb live ath) eqn:Hgt.
    2: { by rewrite buy_for_user_below. }
    rewrite (buy_for_user_at_cap _ _ _ _ _ _ _ _ _ _ _ Hlog Hgt Hk) by done.
    rewrite Nat.eqb_refl. simpl. unfold log_buy_alert_month, append_row.
    destruct (w_append_row _ _); simpl; [done|].
    split; [|done]. rewrite notifications_app. simpl. by rewrite app_nil_r.
  - intros um user_name stock live buy sma10 sma20 s Hk.
    apply sell_for_holding_at_cap. by rewrite Hk.
  - intros ws key. apply capped_main_loop, capped_init.
Qed.

(** C4. For a parsed pair (live price, ATH) and a user not blocked by
    the alert log, whose key is under the cap: the buy alert is sent (to
    the channels the user has, numbered one above the counter) and
    counted exactly when the live price is strictly above the ATH.  A
    price that is not strictly above, so also the ATH itself, does
    nothing at all: nothing is sent, counted or logged.  The cap is the
    one thing that holds back a triggered alert: strictly above and at
    the cap, nothing is sent or counted. *)
Theorem buy_fires_iff_strictly_above w log ym today stock ath live user_name info s :
  let key := buy_alert_key user_name stock ath today in
  let c := default 0 (alert_counters s !! key) in
  let alert := dispatch (telegram_id info) (email info)
                 ("BUY ALERT for " +:+ stock) (buy_message stock live ath c) in
  let r := buy_for_user w log ym today stock ath live (user_name, info) s in
  buy_alert_sent_this_month log user_name stock ym = false →
  (c < MAX_ALERTS_PER_TRIGGER →
   (notifications (trace r.2) = notifications (trace s) ++ alert
    ∧ alert_counters r.2 = <[key := c + 1]> (alert_counters s))
   ↔ (ath <? live)%float = true)
  ∧ ((ath <? live)%float = false → r = (Ok tt, s))
  ∧ ((live =? ath)%float = true → r = (Ok tt, s))
  ∧ (MAX_ALERTS_PER_TRIGGER ≤ c → (ath <? live)%float = true →
     notifications (trace r.2) = notifications (trace s)
     ∧ alert_counters r.2 = alert_counters s).
Proof.
  intros key c alert r Hlog. repeat apply conj.
  - intros Hlt. split.
    + intros [_ Hcount]. destruct (ath <? live)%float eqn:Hgt; [done|].
      assert (r = (Ok tt, s)) as Hr by (by apply buy_for_user_below).
      rewrite Hr in Hcount. cbn [snd] in Hcount.
      apply (f_equal (λ m, default 0 (m !! key))) in Hcount.
      rewrite lookup_insert_eq in Hcount. fold c in Hcount. cbn in Hcount. lia.
    + intros Hgt. unfold r.
      rewrite (buy_for_user_fired _ _ _ _ _ _ _ _ _ _ Hlog Hgt Hlt). fold key c alert.
      destruct (log_keeps (c + 1 =? MAX_ALERTS_PER_TRIGGER) w user_name stock ym
                  {| alert_counters := <[key := c + 1]> (alert_counters s);
                     trace := trace s ++ alert |}) as [Hcount Hsent].
      split; [|exact Hcount].
      rewrite Hsent. cbn [trace]. rewrite notifications_app.
      unfold alert. by rewrite notifications_dispatch.
  - intros Hgt. by apply buy_for_user_below.
  - intros Heq. apply buy_for_user_below. unfold gtb.
    by apply float_eqb_not_ltb.
  - intros Hge Hgt.
    assert (alert_counters s !! key = Some c) as Hk.
    { subst c. destruct (alert_counters s !! key) eqn:E; simpl in *; [done|].
      unfold MAX_ALERTS_PER_TRIGGER in Hge. lia. }
    unfold r. rewrite (buy_for_user_at_cap _ _ _ _ _ _ _ _ _ _ _ Hlog Hgt Hk Hge).
    destruct (log_keeps (c =? MAX_ALERTS_PER_TRIGGER) w user_name stock ym s)
      as [Hcount Hsent].
    by split.
Qed.

(** C5. The sell decision looks at one moving average only, chosen by
    the doubling test.  Below twice the buy price it signals exactly
    when the price is below a positive 20M average, with the 20M reason,
    whatever the 10M average is; otherwise it signals exactly when the
    price is below a positive 10M average, with the 10M reason, whatever
    the 20M average is.  Without NaNs "otherwise" is: the price is at
    least twice the buy price.  An average that is zero never signals,
    and an unset cell is read as zero. *)
Theorem sell_regime_switch live buy sma10 sma20 :
  let d := sell_decision live buy sma10 sma20 in
  ((live <? buy * 2)%float = true →
     (d.1 = true ↔ (live <? sma20)%float = true ∧ (0 <? sma20)%float = true)
     ∧ (d.1 = true → d.2 = "Price below 20M SMA (" +:+ str_of_float sma20 +:+ ")")
     ∧ ((sma20 =? 0)%float = true → d.1 = false)
     ∧ (∀ other, sell_decision live buy other sma20 = d))
  ∧ ((live <? buy * 2)%float = false →
     (d.1 = true ↔ (live <? sma10)%float = true ∧ (0 <? sma10)%float = true)
     ∧ (d.1 = true → d.2 = "Price below 10M SMA (" +:+ str_of_float sma10 +:+ ")")
     ∧ ((sma10 =? 0)%float = true → d.1 = false)
     ∧ (∀ other, sell_decision live buy sma10 other = d))
  ∧ (is_nan live = false → is_nan (buy * 2) = false →
     ((live <? buy * 2)%float = false ↔ (buy * 2 <=? live)%float = true))
  ∧ (∀ c, truthy c = false →
     py_float (py_or c (CInt 0)) = Some 0%float).
Proof.
  lazy zeta. unfold sell_decision, gtb.
  split; [|split; [|split]].
  - intros ->. split; [|split; [|split]].
    + destruct (live <? sma20)%float, (0 <? sma20)%float; simpl;
        intuition congruence.
    + by destruct (live <? sma20)%float, (0 <? sma20)%float.
    + intros Hz. apply float_eqb_not_ltb in Hz. by rewrite Hz, andb_false_r.
    + done.
  - intros ->. split; [|split; [|split]].
    + destruct (live <? sma10)%float, (0 <? sma10)%float; simpl;
        intuition congruence.
    + by destruct (live <? sma10)%float, (0 <? sma10)%float.
    + intros Hz. apply float_eqb_not_ltb in Hz. by rewrite Hz, andb_false_r.
    + done.
  - apply float_not_ltb_leb.
  - intros c Hc. unfold py_or. by rewrite Hc.
Qed.

(** C6. The sell phase never writes to the alert log: whatever the
    holdings, the prices and the counters, the rows appended so far are
    the same after it; it does not read the log either, nor depend on
    whether an append would succeed.  The only limit it applies is the
    counter of the key: a signalled holding is a no-op exactly when the
    counter of its key has reached 5. *)
Theorem sell_phase_never_logs w sh s :
  rows_appended (trace (sell_phase w sh s).2)
  = rows_appended (trace s)
  ∧ (∀ w' sh',
       w_history w' = w_history w → active_data sh' = active_data sh →
       user_map sh' = user_map sh →
       sell_phase w' sh' s
       = sell_phase w sh s)
  ∧ (∀ um user_name stock live buy sma10 sma20,
       let d := sell_decision live buy sma10 sma20 in
       d.1 = true → capped s →
       (sell_for_holding um user_name stock live buy sma10 sma20 s
          = (Ok tt, s)
        ↔ default 0 (alert_counters s !! sell_alert_key user_name stock d.2)
          = MAX_ALERTS_PER_TRIGGER)).
Proof.
  split; [|split].
  - apply (respects_sell_phase (same rows_appended) (same_preorder _)).
    + apply same_rows_emit.
    + intros. apply same_counter_set.
  - intros w' sh' Hh Ha Hu. unfold sell_phase. by rewrite Hh, Ha, Hu.
  - intros um user_name stock live buy sma10 sma20 d Hd Hcap. subst d.
    set (key := sell_alert_key user_name stock _).
    destruct (decide (default 0 (alert_counters s !! key) < MAX_ALERTS_PER_TRIGGER))
      as [Hlt|Hge].
    + rewrite (sell_for_holding_fired _ _ _ _ _ _ _ _ Hd Hlt). fold key.
      split; [|lia]. intros Heq.
      apply (f_equal (λ p, alert_counters p.2 !! key)) in Heq.
      simpl in Heq. rewrite lookup_insert_eq in Heq.
      destruct (alert_counters s !! key); simpl in Heq; [injection Heq; lia | done].
    + specialize (Hcap key). split; [lia|].
      intros _. apply sell_for_holding_at_cap. fold key. lia.
Qed.

(** C7. A triggered alert for a user with neither an IM handle nor a
    mail address sends nothing, and is counted all the same: the counter
    of the key goes up by one and, when it reaches 5 in the buy case,
    the row of the month is appended.  The same holds for a holding
    whose owner is not in the user directory. *)
Theorem no_contact_still_counts :
  (∀ w log ym today stock ath live user_name info s,
     let key := buy_alert_key user_name stock ath today in
     let c := default 0 (alert_counters s !! key) in
     let row := [user_name; stock; ym; "buy"; strftime_YmdHMS (w_append_time w)] in
     telegram_id info = "" → email info = "" →
     buy_alert_sent_this_month log user_name stock ym = false →
     (ath <? live)%float = true →
     c < MAX_ALERTS_PER_TRIGGER →
     w_append_row w row = None →
     buy_for_user w log ym today stock ath live (user_name, info) s
     = (Ok tt,
        {| alert_counters := <[key := c + 1]> (alert_counters s);
           trace := trace s
                    ++ (if (c + 1 =? MAX_ALERTS_PER_TRIGGER) then [AppendRow row]
                        else []) |}))
  ∧ (∀ um user_name stock live buy sma10 sma20 s,
     let d := sell_decision live buy sma10 sma20 in
     let key := sell_alert_key user_name stock d.2 in
     let c := default 0 (alert_counters s !! key) in
     (user_lookup um user_name = None
      ∨ ∃ info, user_lookup um user_name = Some info
                ∧ telegram_id info = "" ∧ email info = "") →
     d.1 = true →
     c < MAX_ALERTS_PER_TRIGGER →
     sell_for_holding um user_name stock live buy sma10 sma20 s
     = (Ok tt,
        {| alert_counters := <[key := c + 1]> (alert_counters s);
           trace := trace s |})).
Proof.
  split.
  - intros w log ym today stock ath live user_name info s key c row
      Htg Hmail Hlog Hgt Hc Happ.
    rewrite (buy_for_user_fired _ _ _ _ _ _ _ _ _ _ Hlog Hgt Hc).
    fold key c. rewrite Htg, Hmail. unfold dispatch. simpl. rewrite app_nil_r.
    unfold when, log_buy_alert_month, append_row. fold row. rewrite Happ.
    destruct (c + 1 =? MAX_ALERTS_PER_TRIGGER); simpl; [done|].
    by rewrite app_nil_r.
  - intros um user_name stock live buy sma10 sma20 s d key c Hu Hd Hc.
    rewrite (sell_for_holding_fired _ _ _ _ _ _ _ _ Hd Hc). fold d key c.
    assert (from_option telegram_id "" (user_lookup um user_name) = ""
            ∧ from_option email "" (user_lookup um user_name) = "") as [-> ->].
    { destruct Hu as [->|(info & -> & ? & ?)]; simpl; auto. }
    unfold dispatch. simpl. by rewrite app_nil_r.
Qed.

(** *** The scan loop and exceptions *)

Lemma bind_raised {A B} (m : M A) (k : A → M B) s e s1 :
  m s = (Raised e, s1) → (m ≫= k) s = (Raised e, s1).
Proof. intros H. unfold mbind, M_bind, bind. by rewrite H. Qed.

Lemma bind_ok {A B} (m : M A) (k : A → M B) s a s1 :
  m s = (Ok a, s1) → (m ≫= k) s = k a s1.
Proof. intros H. unfold mbind, M_bind, bind. by rewrite H. Qed.

(** An exception in the body at one element leaves the loop there: the
    elements after it are not visited. *)
Lemma for_each_raised {A} (before after : list A) x (body : A → M unit) s s1 s2 e :
  for_each before body s = (Ok tt, s1) →
  body x s1 = (Raised e, s2) →
  for_each (before ++ x :: after) body s = (Raised e, s2).
Proof.
  revert s. induction before as [|y before IH]; intros s Hb Hx; simpl in *.
  - inversion Hb; subst. by apply bind_raised.
  - unfold mbind, M_bind, bind in *.
    destruct (body y s) as [[[]|e'] s'] eqn:E; [|discriminate]. by apply IH.
Qed.

Lemma sleeps_cycle w s :
  sleeps (trace (cycle w s).2) = sleeps (trace s).
Proof.
  apply (respects_cycle (same sleeps) (same_preorder _)).
  - intros e He. apply same_sleeps_emit. by destruct e.
  - intros. apply same_counter_set.
  - intros row. by apply same_sleeps_emit.
Qed.

Lemma scan_eq w s :
  scan w s
  = {| alert_counters := alert_counters (cycle w s).2;
       trace := trace (cycle w s).2
                ++ [Sleep CHECK_INTERVAL] |}.
Proof. unfold scan. by destruct (cycle w s) as [[[]|e] s1]. Qed.

Lemma sleeps_scan w s :
  sleeps (trace (scan w s)) = sleeps (trace s) + 1.
Proof. rewrite scan_eq. simpl. by rewrite sleeps_app, sleeps_cycle. Qed.

Lemma main_loop_snoc ws w s :
  main_loop (ws ++ [w]) s
  = scan w (main_loop ws s).
Proof. unfold main_loop. by rewrite foldl_app. Qed.

Lemma sleeps_main_loop ws s :
  sleeps (trace (main_loop ws s))
  = sleeps (trace s) + length ws.
Proof.
  revert s. induction ws as [|w ws IH]; intros s; simpl; [lia|].
  rewrite IH, sleeps_scan. lia.
Qed.

(** C8. An exception raised anywhere in one scan (by the sheet load, in
    the buy phase, at an append to the alert log, in the sell phase) is
    caught by the scan loop: the state reached when it was raised is
    kept, the rest of the scan is not run, the loop sleeps the normal
    interval and goes on with the next scan.  However the scans end,
    [n] worlds give [n] scans and [n] sleeps. *)
Theorem scan_loop_survives_exceptions w s :
  (∀ e s1, cycle w s = (Raised e, s1) →
     scan w s
     = {| alert_counters := alert_counters s1;
          trace := trace s1 ++ [Sleep CHECK_INTERVAL] |})
  ∧ (∀ e, w_load_sheets w = Raised e →
       cycle w s = (Raised e, s))
  ∧ (∀ sh e s1, w_load_sheets w = Ok sh →
       buy_phase w sh s = (Raised e, s1) →
       cycle w s = (Raised e, s1))
  ∧ (∀ sh before row after ym today prices s1 s2 e,
       for_each before (buy_for_row w sh prices ym today) s
         = (Ok tt, s1) →
       buy_for_row w sh prices ym today row s1
         = (Raised e, s2) →
       for_each (before ++ row :: after)
         (buy_for_row w sh prices ym today) s
       = (Raised e, s2))
  ∧ (∀ ws w',
       main_loop (ws ++ [w; w']) s
       = scan w'
           (scan w
              (main_loop ws s)))
  ∧ (∀ ws, sleeps (trace (main_loop ws s))
           = sleeps (trace s) + length ws).
Proof.
  repeat apply conj.
  - intros e s1 H. rewrite scan_eq. by rewrite H.
  - intros e H. unfold cycle. apply bind_raised. unfold load_sheets. by rewrite H.
  - intros sh e s1 H Hb. unfold cycle.
    rewrite (bind_ok _ _ s sh s); [|unfold load_sheets; by rewrite H].
    by apply bind_raised.
  - intros sh before row after ym today prices s1 s2 e. apply for_each_raised.
  - intros ws w'. change [w; w'] with ([w] ++ [w']).
    by rewrite app_assoc, !main_loop_snoc.
  - intros ws. apply sleeps_main_loop.
Qed.


(** *** Alert keys of the sell phase *)

Lemma string_length_app (a b : string) :
  String.length (a +:+ b) = String.length a + String.length b.
Proof. induction a as [|x a IH]; simpl; [done | by rewrite IH]. Qed.

Lemma string_app_inv_tail (a b c : string) : a +:+ c = b +:+ c → a = b.
Proof.
  revert b. induction a as [|x a IH]; intros [|y b] H; simpl in *.
  - done.
  - apply (f_equal String.length) in H.
    rewrite !string_length_app in H. simpl in H. exfalso. lia.
  - apply (f_equal String.length) in H.
    rewrite !string_length_app in H. simpl in H. exfalso. lia.
  - injection H as -> H. f_equal. by apply IH.
Qed.

Lemma sell_alert_key_inj user_name stock reason reason' :
  sell_alert_key user_name stock reason = sell_alert_key user_name stock reason' →
  reason = reason'.
Proof.
  unfold sell_alert_key. intros H.
  by repeat (apply String.app_inj in H).
Qed.

Lemma sell_decision_reason live buy sma10 sma20 :
  (sell_decision live buy sma10 sma20).1 = true →
  (sell_decision live buy sma10 sma20).2
  = if (live <? buy * 2)%float
    then "Price below 20M SMA (" +:+ str_of_float sma20 +:+ ")"
    else "Price below 10M SMA (" +:+ str_of_float sma10 +:+ ")".
Proof.
  unfold sell_decision. destruct (live <? buy * 2)%float.
  - by destruct (_ && _).
  - by destruct (_ && _).
Qed.

(** C10. The reason text of a sell key carries the moving average that
    was compared.  When [str] is injective on floats, as Python's is,
    two signalled evaluations of one (user, stock) that differ in the
    regime or in the moving average of the regime have different keys,
    and the evaluation of one leaves the counter of the other as it
    is: the cap of 5 is per (user, stock, regime, average), not per
    (user, stock). *)
Theorem sell_key_carries_sma user_name stock
    live buy sma10 sma20 live' buy' sma10' sma20' :
  let d := sell_decision live buy sma10 sma20 in
  let d' := sell_decision live' buy' sma10' sma20' in
  let key := sell_alert_key user_name stock d.2 in
  let key' := sell_alert_key user_name stock d'.2 in
  (∀ x y, str_of_float x = str_of_float y → x = y) →
  d.1 = true → d'.1 = true →
  (live <? buy * 2)%float ≠ (live' <? buy' * 2)%float
  ∨ (if (live <? buy * 2)%float then sma20 else sma10)
    ≠ (if (live' <? buy' * 2)%float then sma20' else sma10') →
  key ≠ key'
  ∧ (∀ um s,
       alert_counters
         (sell_for_holding um user_name stock live buy sma10 sma20 s).2
         !! key'
       = alert_counters s !! key')
  ∧ (∀ um s,
       alert_counters s !! key = Some MAX_ALERTS_PER_TRIGGER →
       alert_counters s !! key' = None →
       sell_for_holding um user_name stock live' buy' sma10' sma20' s
       = (Ok tt,
          {| alert_counters := <[key' := 1]> (alert_counters s);
             trace := trace s ++ dispatch
                        (from_option telegram_id "" (user_lookup um user_name))
                        (from_option email "" (user_lookup um user_name))
                        ("SELL ALERT for " +:+ stock)
                        (sell_message stock live' buy' d'.2 0) |})).
Proof.
  intros d d' key key' Hinj Hd Hd' Hdiff.
  assert (key ≠ key') as Hne.
  { intros Hk. apply sell_alert_key_inj in Hk. subst d d'.
    rewrite !sell_decision_reason in Hk by done.
    destruct (live <? buy * 2)%float, (live' <? buy' * 2)%float;
      try discriminate Hk.
    - apply String.app_inj, string_app_inv_tail, Hinj in Hk.
      destruct Hdiff as [H|H]; by destruct H.
    - apply String.app_inj, string_app_inv_tail, Hinj in Hk.
      destruct Hdiff as [H|H]; by destruct H. }
  split; [exact Hne|]. split.
  - intros um s. subst d.
    destruct (decide (default 0 (alert_counters s !! key) < MAX_ALERTS_PER_TRIGGER))
      as [Hlt|Hge].
    + rewrite (sell_for_holding_fired _ _ _ _ _ _ _ _ Hd Hlt). simpl.
      by rewrite lookup_insert_ne.
    + rewrite sell_for_holding_at_cap; [done|]. fold key. lia.
  - intros um s Hk Hk'. subst d'.
    rewrite (sell_for_holding_fired um _ _ _ _ _ _ s Hd').
    + fold key'. by rewrite Hk'.
    + fold key'. rewrite Hk'. simpl. unfold MAX_ALERTS_PER_TRIGGER. lia.
Qed.

(** ** More on the evaluation steps *)

(** The three ways a buy evaluation can go: nothing happens; an alert
    is sent and counted; the key is at the cap. *)
Lemma buy_for_user_cases w log ym today stock ath live user_name info s :
  let key := buy_alert_key user_name stock ath today in
  let c := default 0 (alert_counters s !! key) in
  buy_for_user w log ym today stock ath live (user_name, info) s = (Ok tt, s)
  ∨ (c < MAX_ALERTS_PER_TRIGGER
     ∧ buy_for_user w log ym today stock ath live (user_name, info) s =
       when (c + 1 =? MAX_ALERTS_PER_TRIGGER)
         (log_buy_alert_month w user_name stock ym)
         {| alert_counters := <[key := c + 1]> (alert_counters s);
            trace := trace s ++ dispatch (telegram_id info) (email info)
                       ("BUY ALERT for " +:+ stock)
                       (buy_message stock live ath c) |})
  ∨ (MAX_ALERTS_PER_TRIGGER ≤ c
     ∧ buy_for_user w log ym today stock ath live (user_name, info) s =
       when (c =? MAX_ALERTS_PER_TRIGGER)
         (log_buy_alert_month w user_name stock ym) s).
Proof.
  intros key c.
  destruct (buy_alert_sent_this_month log user_name stock ym) eqn:Hlog.
  { left. by apply buy_for_user_blocked. }
  destruct (gtb live ath) eqn:Hgt.
  2: { left. by apply buy_for_user_below. }
  destruct (decide (c < MAX_ALERTS_PER_TRIGGER)) as [Hlt|Hge].
  - right. left. split; [done|]. by apply buy_for_user_fired.
  - right. right. split; [lia|].
    assert (alert_counters s !! key = Some c) as Hk.
    { subst c. destruct (alert_counters s !! key) eqn:E; simpl in *; [done|].
      unfold MAX_ALERTS_PER_TRIGGER in Hge. lia. }
    apply (buy_for_user_at_cap _ _ _ _ _ _ _ _ _ _ _ Hlog Hgt Hk). lia.
Qed.

(** The two ways a sell evaluation can go. *)
Lemma sell_for_holding_cases um user_name stock live buy sma10 sma20 s :
  let reason := (sell_decision live buy sma10 sma20).2 in
  let key := sell_alert_key user_name stock reason in
  let c := default 0 (alert_counters s !! key) in
  sell_for_holding um user_name stock live buy sma10 sma20 s = (Ok tt, s)
  ∨ ((sell_decision live buy sma10 sma20).1 = true
     ∧ c < MAX_ALERTS_PER_TRIGGER
     ∧ sell_for_holding um user_name stock live buy sma10 sma20 s =
       (Ok tt,
        {| alert_counters := <[key := c + 1]> (alert_counters s);
           trace := trace s ++ dispatch
                      (from_option telegram_id "" (user_lookup um user_name))
                      (from_option email "" (user_lookup um user_name))
                      ("SELL ALERT for " +:+ stock)
                      (sell_message stock live buy reason c) |})).
Proof.
  intros reason key c.
  destruct (sell_decision live buy sma10 sma20).1 eqn:Hd.
  2: { left. by apply sell_for_holding_quiet. }
  destruct (decide (c < MAX_ALERTS_PER_TRIGGER)) as [Hlt|Hge].
  - right. split; [done|]. split; [done|]. by apply sell_for_holding_fired.
  - left. apply sell_for_holding_at_cap. fold reason key c. lia.
Qed.

(** *** From the steps to the scan *)

Section Steps.
Context (R : relation state).
Context (HR : PreOrder R).
Context (R_buy : ∀ w log ym today stock ath live user,
           respects R (buy_for_user w log ym today stock ath live user)).
Context (R_sell : ∀ um user_name stock live buy sma10 sma20,
           respects R (sell_for_holding um user_name stock live buy sma10 sma20)).

Lemma steps_buy_phase w sh : respects R (buy_phase w sh).
Proof.
  unfold buy_phase. apply (respects_bind _ HR).
  { apply (respects_map_M _ HR). intros row. apply (respects_index_Stock _ HR). }
  intros cells. lazy zeta. apply (respects_for_each _ HR). intros row.
  unfold buy_for_row. apply (respects_bind _ HR); [apply (respects_index_Stock _ HR)|].
  intros stock. lazy zeta.
  destruct (_ || _); [apply (respects_ret _ HR)|].
  destruct (prices_get _ _), stock; try apply (respects_ret _ HR).
  destruct (py_float _); [|apply (respects_ret _ HR)]. simpl.
  apply (respects_for_each _ HR). intros user. apply R_buy.
Qed.

Lemma steps_sell_phase w sh : respects R (sell_phase w sh).
Proof.
  unfold sell_phase. lazy zeta. apply (respects_for_each _ HR). intros row.
  unfold sell_for_row.
  destruct (act_Stock row) as [stock|]; [|apply (respects_ret _ HR)].
  destruct (negb _); [apply (respects_ret _ HR)|].
  destruct (py_float (Buy_Price row)); [|apply (respects_ret _ HR)].
  destruct (prices_get _ _), stock; try apply (respects_ret _ HR).
  destruct (py_float _); [|apply (respects_ret _ HR)].
  destruct (py_float _); [|apply (respects_ret _ HR)].
  apply R_sell.
Qed.

Lemma steps_cycle w : respects R (cycle w).
Proof.
  unfold cycle. apply (respects_bind _ HR); [apply (respects_load_sheets _ HR)|].
  intros sh. apply (respects_bind _ HR); [apply steps_buy_phase|].
  intros _. apply steps_sell_phase.
Qed.

Context (R_sleep : ∀ n, respects R (emit (Sleep n))).

Lemma steps_scan w s : R s (scan w s).
Proof.
  rewrite scan_eq. etrans; [apply (steps_cycle w s)|].
  apply (R_sleep CHECK_INTERVAL).
Qed.

Lemma steps_main_loop ws s : R s (main_loop ws s).
Proof.
  revert s. induction ws as [|w ws IH]; intros s; simpl; [reflexivity|].
  etrans; [apply (steps_scan w s)|]. apply IH.
Qed.
End Steps.

(** *** The state only grows *)

Lemma grows_refl s : grows s s.
Proof. by repeat split. Qed.

Lemma grows_trans s1 s2 s3 : grows s1 s2 → grows s2 s3 → grows s1 s3.
Proof.
  intros (H1 & H2 & H3) (H1' & H2' & H3'). split; [|split].
  - intros k. etrans; [apply H1 | apply H1'].
  - by etrans.
  - by etrans.
Qed.

Lemma grows_preorder : PreOrder grows.
Proof. split; [exact grows_refl | exact grows_trans]. Qed.

Lemma grows_emit evs s :
  grows s {| alert_counters := alert_counters s; trace := trace s ++ evs |}.
Proof. split; [|split]; simpl; [done|done|]. by apply prefix_app_r. Qed.

Lemma grows_bump key evs s :
  grows s {| alert_counters :=
               <[key := default 0 (alert_counters s !! key) + 1]> (alert_counters s);
             trace := trace s ++ evs |}.
Proof.
  split; [|split]; simpl.
  - intros k. destruct (decide (key = k)) as [->|Hne].
    + rewrite lookup_insert_eq. simpl. lia.
    + by rewrite lookup_insert_ne.
  - rewrite dom_insert_L. apply union_subseteq_r.
  - by apply prefix_app_r.
Qed.

Lemma grows_append_row w row : respects grows (append_row w row).
Proof.
  intros s. unfold append_row. destruct (w_append_row w row); simpl.
  - apply grows_refl.
  - apply grows_emit.
Qed.

Lemma grows_buy_for_user w log ym today stock ath live user :
  respects grows (buy_for_user w log ym today stock ath live user).
Proof.
  destruct user as [user_name info]. intros s.
  destruct (buy_for_user_cases w log ym today stock ath live user_name info s)
    as [-> | [[_ ->] | [_ ->]]].
  - apply grows_refl.
  - set (s1 := {| alert_counters := _; trace := _ |}).
    apply (grows_trans _ s1); [apply grows_bump|].
    unfold when, log_buy_alert_month. destruct (_ =? _); [apply grows_append_row|].
    apply grows_refl.
  - unfold when, log_buy_alert_month. destruct (_ =? _); [apply grows_append_row|].
    apply grows_refl.
Qed.

Lemma grows_sell_for_holding um user_name stock live buy sma10 sma20 :
  respects grows (sell_for_holding um user_name stock live buy sma10 sma20).
Proof.
  intros s.
  destruct (sell_for_holding_cases um user_name stock live buy sma10 sma20 s)
    as [-> | (_ & _ & ->)].
  - apply grows_refl.
  - apply grows_bump.
Qed.

(** X1. Across any number of scans no counter goes down, no key of
    [alert_counters] is dropped, and what was sent or logged stays in
    the trace. *)
Theorem main_loop_only_grows ws s :
  (∀ key, default 0 (alert_counters s !! key)
          ≤ default 0 (alert_counters (main_loop ws s) !! key))
  ∧ dom (alert_counters s) ⊆ dom (alert_counters (main_loop ws s))
  ∧ trace s `prefix_of` trace (main_loop ws s).
Proof.
  apply (steps_main_loop grows grows_preorder).
  - apply grows_buy_for_user.
  - apply grows_sell_for_holding.
  - intros n s'. apply grows_emit.
Qed.

(** *** Every notification is counted *)

Lemma sum_list_perm (l1 l2 : list nat) : l1 ≡ₚ l2 → sum_list l1 = sum_list l2.
Proof. induction 1; simpl; lia. Qed.

Lemma total_insert_fresh (m : gmap string nat) k n :
  m !! k = None → total (<[k := n]> m) = n + total m.
Proof.
  intros H. unfold total.
  rewrite (sum_list_perm _ _ (fmap_Permutation snd _ _ (map_to_list_insert m k n H))).
  reflexivity.
Qed.

Lemma total_insert (m : gmap string nat) k n :
  total (<[k := n]> m) + default 0 (m !! k) = total m + n.
Proof.
  destruct (m !! k) as [v|] eqn:E; simpl.
  - rewrite <- (insert_delete_eq m k n).
    rewrite <- (insert_delete_id m k v E) at 2.
    rewrite !total_insert_fresh by apply lookup_delete_eq. lia.
  - rewrite total_insert_fresh by done. lia.
Qed.

Lemma total_capped (m : gmap string nat) :
  (∀ k, default 0 (m !! k) ≤ MAX_ALERTS_PER_TRIGGER) →
  total m ≤ MAX_ALERTS_PER_TRIGGER * size m.
Proof.
  induction m as [|k v m Hk IH] using map_ind; intros Hcap.
  - unfold total. rewrite map_to_list_empty, map_size_empty. simpl. lia.
  - rewrite total_insert_fresh, map_size_insert_None by done.
    pose proof (Hcap k) as Hv. rewrite lookup_insert_eq in Hv. simpl in Hv.
    assert (total m ≤ MAX_ALERTS_PER_TRIGGER * size m) as IH'.
    { apply IH. intros k'. specialize (Hcap k').
      destruct (decide (k = k')) as [<-|Hne]; [rewrite Hk; simpl; lia|].
      by rewrite lookup_insert_ne in Hcap. }
    lia.
Qed.

Lemma length_dispatch chat_id email subject msg :
  length (dispatch chat_id email subject msg) ≤ 2.
Proof. unfold dispatch. destruct (nonempty chat_id), (nonempty email); simpl; lia. Qed.

Lemma keeps_accounted_preorder : PreOrder keeps_accounted.
Proof. split; [intros s; exact id | intros s1 s2 s3 H1 H2 H; auto]. Qed.

Lemma accounted_bump key chat_id email subject msg s :
  accounted s →
  accounted {| alert_counters :=
                 <[key := default 0 (alert_counters s !! key) + 1]> (alert_counters s);
               trace := trace s ++ dispatch chat_id email subject msg |}.
Proof.
  unfold accounted. simpl. intros H.
  rewrite notifications_app, length_app, notifications_dispatch.
  pose proof (length_dispatch chat_id email subject msg).
  pose proof (total_insert (alert_counters s) key
                (default 0 (alert_counters s !! key) + 1)).
  lia.
Qed.

Lemma accounted_append_row w row : respects keeps_accounted (append_row w row).
Proof.
  intros s. unfold append_row, keeps_accounted, accounted.
  destruct (w_append_row w row); simpl; [done|].
  rewrite notifications_app. simpl. by rewrite app_nil_r.
Qed.

Lemma accounted_buy_for_user w log ym today stock ath live user :
  respects keeps_accounted
    (buy_for_user w log ym today stock ath live user).
Proof.
  destruct user as [user_name info]. intros s Hs.
  destruct (buy_for_user_cases w log ym today stock ath live user_name info s)
    as [-> | [[_ ->] | [_ ->]]].
  - exact Hs.
  - set (s1 := {| alert_counters := _; trace := _ |}).
    assert (accounted s1) as H1 by by apply accounted_bump.
    unfold when, log_buy_alert_month. destruct (_ =? _); [|exact H1].
    by apply accounted_append_row.
  - unfold when, log_buy_alert_month. destruct (_ =? _); [|exact Hs].
    by apply accounted_append_row.
Qed.

Lemma accounted_sell_for_holding um user_name stock live buy sma10 sma20 :
  respects keeps_accounted
    (sell_for_holding um user_name stock live buy sma10 sma20).
Proof.
  intros s Hs.
  destruct (sell_for_holding_cases um user_name stock live buy sma10 sma20 s)
    as [-> | (_ & _ & ->)].
  - exact Hs.
  - by apply accounted_bump.
Qed.

Lemma accounted_sleep n : respects keeps_accounted (emit (Sleep n)).
Proof.
  intros s. unfold keeps_accounted, accounted. simpl.
  rewrite notifications_app. simpl. by rewrite app_nil_r.
Qed.

(** X2. From a fresh process, whatever is scanned, the sends never
    outnumber twice the alerts counted, and the alerts counted are at
    most five per key: no more than ten sends (five posts and five
    mails) for each key that exists. *)
Theorem sends_are_counted ws :
  let s := main_loop ws init in
  length (notifications (trace s)) ≤ 2 * total (alert_counters s)
  ∧ total (alert_counters s) ≤ MAX_ALERTS_PER_TRIGGER * size (alert_counters s)
  ∧ length (notifications (trace s)) ≤ 10 * size (alert_counters s).
Proof.
  intros s.
  assert (accounted s) as Ha.
  { apply (steps_main_loop keeps_accounted keeps_accounted_preorder).
    - apply accounted_buy_for_user.
    - apply accounted_sell_for_holding.
    - apply accounted_sleep.
    - unfold accounted, init, total. simpl. rewrite map_to_list_empty. simpl. lia. }
  assert (total (alert_counters s) ≤ MAX_ALERTS_PER_TRIGGER * size (alert_counters s))
    as Ht.
  { apply total_capped. apply (capped_main_loop), capped_init. }
  unfold accounted, MAX_ALERTS_PER_TRIGGER in *. lia.
Qed.

(** *** Where exceptions come from *)

Lemma raises_only_ret P {A} (a : A) : raises_only P (ret a).
Proof. intros s e s' H. discriminate H. Qed.

Lemma raises_only_bind P {A B} (m : M A) (k : A → M B) :
  raises_only P m → (∀ a, raises_only P (k a)) → raises_only P (m ≫= k).
Proof.
  intros Hm Hk s e s' H. unfold mbind, M_bind, bind in H.
  destruct (m s) as [[a|e0] s1] eqn:E.
  - by apply (Hk a s1 e s').
  - inversion H; subst. by apply (Hm s e s').
Qed.

Lemma raises_only_when P (c : bool) (m : M unit) :
  raises_only P m → raises_only P (when c m).
Proof. destruct c; simpl; auto using raises_only_ret. Qed.

Lemma raises_only_for_each P {A} (l : list A) (body : A → M unit) :
  (∀ x, x ∈ l → raises_only P (body x)) → raises_only P (for_each l body).
Proof.
  induction l as [|x l IH]; intros Hb; simpl.
  - apply raises_only_ret.
  - apply raises_only_bind; [apply Hb; left|].
    intros _. apply IH. intros y Hy. apply Hb. by right.
Qed.

Lemma raises_only_map_M P {A B} (f : A → M B) (l : list A) :
  (∀ x, x ∈ l → raises_only P (f x)) → raises_only P (map_M f l).
Proof.
  induction l as [|x l IH]; intros Hf; simpl.
  - apply raises_only_ret.
  - apply raises_only_bind; [apply Hf; left|]. intros y.
    apply raises_only_bind; [|intros ys; apply raises_only_ret].
    apply IH. intros z Hz. apply Hf. by right.
Qed.

Lemma raises_only_append_row w row :
  raises_only (λ e, ∃ row, w_append_row w row = Some e) (append_row w row).
Proof.
  intros s e s' H. unfold append_row in H.
  destruct (w_append_row w row) as [e0|] eqn:E; [|discriminate H].
  inversion H; subst. by exists row.
Qed.

Lemma raises_only_buy_for_user w log ym today stock ath live user :
  raises_only (λ e, ∃ row, w_append_row w row = Some e)
    (buy_for_user w log ym today stock ath live user).
Proof.
  destruct user as [user_name info]. intros s e s' H.
  destruct (buy_for_user_cases w log ym today stock ath live user_name info s)
    as [Hc | [[_ Hc] | [_ Hc]]]; rewrite Hc in H.
  - discriminate H.
  - unfold log_buy_alert_month in H.
    exact (raises_only_when _ _ _ (raises_only_append_row w _) _ _ _ H).
  - unfold log_buy_alert_month in H.
    exact (raises_only_when _ _ _ (raises_only_append_row w _) _ _ _ H).
Qed.

Lemma raises_only_index_Stock row :
  raises_only (λ e, e = KeyError "Stock" ∧ ath_Stock row = None) (index_Stock row).
Proof.
  intros s e s' H. unfold index_Stock in H.
  destruct (ath_Stock row); [discriminate H|]. by inversion H.
Qed.

Lemma sell_for_row_ok um prices row s :
  (sell_for_row um prices row s).1 = Ok tt.
Proof.
  unfold sell_for_row.
  destruct (act_Stock row) as [stock|]; [|done].
  destruct (negb _); [done|].
  destruct (py_float (Buy_Price row)) as [buy_price|]; [|done].
  destruct (prices_get _ _) as [live_price|], stock as [|stock| |]; try done.
  destruct (py_float _) as [sma_10m|]; [|done].
  destruct (py_float _) as [sma_20m|]; [|done].
  by destruct (sell_for_holding_cases um (Name row) stock live_price buy_price
                 sma_10m sma_20m s) as [-> | (_ & _ & ->)].
Qed.

Lemma sell_phase_ok w sh s :
  (sell_phase w sh s).1 = Ok tt.
Proof.
  unfold sell_phase. lazy zeta.
  match goal with |- context [get_prices ?h ?l] => generalize (get_prices h l) end.
  intros prices. revert s.
  induction (active_data sh) as [|row l IH]; intros s; simpl; [done|].
  unfold mbind, M_bind, bind.
  pose proof (sell_for_row_ok (user_map sh) prices row s) as H.
  destruct (sell_for_row _ _ _ _) as [[[]|e] s1]; [apply IH | discriminate H].
Qed.

(** X3. An exception leaves a scan for one of three reasons only:
    the sheets could not be loaded, a row of the watch list has no Stock
    column, or an append to the alert log failed.  The sell phase never
    raises, and neither does the counter lookup after the send block. *)
Theorem cycle_raises_only w s e s' :
  cycle w s = (Raised e, s') →
  w_load_sheets w = Raised e
  ∨ (e = KeyError "Stock"
     ∧ ∃ sh row, w_load_sheets w = Ok sh ∧ row ∈ ath_data sh ∧ ath_Stock row = None)
  ∨ (∃ row, w_append_row w row = Some e).
Proof.
  unfold cycle, mbind, M_bind, bind, load_sheets.
  destruct (w_load_sheets w) as [sh|e0] eqn:Hload.
  2: { intros H. inversion H. by left. }
  intros H. right.
  destruct (buy_phase w sh s) as [[[]|e1] s1] eqn:Hbuy.
  { pose proof (sell_phase_ok w sh s1) as Hok. rewrite H in Hok. discriminate Hok. }
  inversion H; subst. clear H.
  set (P := λ e, (e = KeyError "Stock"
                  ∧ ∃ row, row ∈ ath_data sh ∧ ath_Stock row = None)
                 ∨ (∃ row, w_append_row w row = Some e)).
  assert (P e) as [[-> (row & Hrow & Hnone)] | Happ].
  { revert Hbuy. apply (raises_only_bind P).
    - apply raises_only_map_M. intros row Hrow s0 e0 s0' H0.
      apply raises_only_index_Stock in H0 as [-> ?]. left. split; [done|]. by exists row.
    - intros cells. lazy zeta. apply raises_only_for_each. intros row Hrow.
      unfold buy_for_row. apply raises_only_bind.
      + intros s0 e0 s0' H0.
        apply raises_only_index_Stock in H0 as [-> ?]. left. split; [done|]. by exists row.
      + intros stock. lazy zeta.
        destruct (_ || _); [apply raises_only_ret|].
        destruct (prices_get _ _); [|apply raises_only_ret].
        destruct stock as [|stock| |]; try apply raises_only_ret.
        destruct (py_float _); [|apply raises_only_ret]. simpl.
        apply raises_only_for_each. intros user _ s2 e2 s2' H2.
        right. by apply raises_only_buy_for_user in H2. }
  - left. split; [done|]. by exists sh, row.
  - by right.
Qed.

(** *** Quiet scans *)

Lemma for_each_quiet {A} (l : list A) (body : A → M unit) s :
  (∀ x, x ∈ l → body x s = (Ok tt, s)) → for_each l body s = (Ok tt, s).
Proof.
  induction l as [|x l IH]; intros Hb; simpl; [done|].
  unfold mbind, M_bind, bind. rewrite Hb by left.
  apply IH. intros y Hy. apply Hb. by right.
Qed.

Lemma map_M_index_Stock_ok (rows : list ath_row) s :
  (∀ row, row ∈ rows → ath_Stock row ≠ None) →
  ∃ cells, map_M index_Stock rows s = (Ok cells, s).
Proof.
  induction rows as [|row rows IH]; intros Hall; simpl.
  - by exists [].
  - destruct IH as [cells Hcells]; [intros r Hr; apply Hall; by right|].
    pose proof (Hall row ltac:(left)) as Hrow.
    destruct (ath_Stock row) as [stock|] eqn:E; [|done].
    exists (stock :: cells).
    rewrite (bind_ok _ _ s stock s); [|unfold index_Stock; by rewrite E].
    by rewrite (bind_ok _ _ _ _ _ Hcells).
Qed.

Lemma map_M_index_Stock_raises (rows : list ath_row) row s :
  row ∈ rows → ath_Stock row = None →
  map_M index_Stock rows s = (Raised (KeyError "Stock"), s).
Proof.
  intros Hin Hnone. induction rows as [|r rows IH]; [by apply elem_of_nil in Hin|].
  simpl. destruct (ath_Stock r) as [stock|] eqn:E.
  - rewrite (bind_ok _ _ s stock s); [|unfold index_Stock; by rewrite E].
    apply elem_of_cons in Hin as [->|Hin]; [congruence|].
    apply bind_raised. by apply IH.
  - apply bind_raised. unfold index_Stock. by rewrite E.
Qed.

Lemma get_prices_lookup hist symbols symbol :
  get_prices hist symbols !! symbol
  = if decide (symbol ∈ text_symbols symbols)
    then snd <$> fetch_price hist (CStr symbol) else None.
Proof.
  assert (queue_of hist symbols (omap (fetch_price hist) symbols)) as Hq
    by (unfold queue_of; reflexivity).
  destruct (decide (symbol ∈ text_symbols symbols)) as [Hs|Hs];
    rewrite elem_of_text_symbols in Hs.
  - destruct (fetch_price_str hist symbol) as [p Hp]. rewrite Hp. simpl.
    apply (drain_queue _ _ _ _ _ Hq Hs Hp).
  - unfold get_prices, drain. rewrite drain_lookup_other; [done|].
    intros Hin. apply list_elem_of_fmap in Hin as ([s0 p] & -> & Hin).
    by apply (queue_of_elem _ _ _ _ _ Hq) in Hin as [? _].
Qed.

Lemma prices_get_no_close hist symbols stock :
  (∀ yf_symbol p, hist yf_symbol ≠ HistClose p) →
  prices_get (get_prices hist symbols) stock = None.
Proof.
  intros Hno. unfold prices_get. destruct stock as [|stock| |]; try done.
  rewrite get_prices_lookup.
  destruct (decide _); [|done]. simpl. unfold fetch_price.
  destruct (hist _) as [| |p] eqn:E; [done|done|]. by destruct (Hno _ _ E).
Qed.

(** X4. When the provider has no close for any symbol, a scan whose
    sheets load and whose watch list has its Stock column does nothing
    but sleep: no send, no counter, no row. *)
Theorem market_down_scan_is_quiet w sh s :
  w_load_sheets w = Ok sh →
  (∀ row, row ∈ ath_data sh → ath_Stock row ≠ None) →
  (∀ yf_symbol p, w_history w yf_symbol ≠ HistClose p) →
  cycle w s = (Ok tt, s)
  ∧ scan w s
    = {| alert_counters := alert_counters s;
         trace := trace s ++ [Sleep CHECK_INTERVAL] |}.
Proof.
  intros Hload Hcol Hdown.
  assert (cycle w s = (Ok tt, s)) as Hc.
  { unfold cycle. rewrite (bind_ok _ _ s sh s); [|unfold load_sheets; by rewrite Hload].
    assert (buy_phase w sh s = (Ok tt, s)) as Hb.
    { unfold buy_phase. destruct (map_M_index_Stock_ok _ s Hcol) as [cells Hcells].
      rewrite (bind_ok _ _ _ _ _ Hcells). lazy zeta.
      apply for_each_quiet. intros row Hrow.
      pose proof (Hcol row Hrow) as Hrow'.
      destruct (ath_Stock row) as [stock|] eqn:E; [|done].
      apply (no_price_is_skipped w sh [] _ _ _ stock s);
        [|done].
      by apply prices_get_no_close. }
    rewrite (bind_ok _ _ _ _ _ Hb).
    unfold sell_phase. lazy zeta. apply for_each_quiet. intros row Hrow.
    destruct (act_Stock row) as [stock|] eqn:E.
    - apply (no_price_is_skipped w sh (user_map sh)
               _ "" "" stock s); [|done].
      by apply prices_get_no_close.
    - unfold sell_for_row. by rewrite E. }
  split; [exact Hc|]. rewrite scan_eq. by rewrite Hc.
Qed.

(** X5. A watch-list row without a Stock column ends the scan with a
    KeyError before anything is sent, counted or logged, so the sell
    phase of that scan is not run either; a holdings sheet without its
    Stock column is only skipped. *)
Theorem missing_stock_column w sh s :
  w_load_sheets w = Ok sh →
  ((∃ row, row ∈ ath_data sh ∧ ath_Stock row = None) →
     cycle w s = (Raised (KeyError "Stock"), s)
     ∧ scan w s
       = {| alert_counters := alert_counters s;
            trace := trace s ++ [Sleep CHECK_INTERVAL] |})
  ∧ ((∀ row, row ∈ active_data sh → act_Stock row = None) →
     sell_phase w sh s = (Ok tt, s)).
Proof.
  intros Hload. split.
  - intros (row & Hrow & Hnone).
    assert (cycle w s = (Raised (KeyError "Stock"), s)) as Hc.
    { unfold cycle. rewrite (bind_ok _ _ s sh s); [|unfold load_sheets; by rewrite Hload].
      apply bind_raised. unfold buy_phase. apply bind_raised.
      by apply (map_M_index_Stock_raises _ row). }
    split; [exact Hc|]. rewrite scan_eq. by rewrite Hc.
  - intros Hnone. unfold sell_phase. lazy zeta. apply for_each_quiet.
    intros row Hrow. unfold sell_for_row. by rewrite (Hnone row Hrow).
Qed.

(** X6. When the alert log holds a buy record of the month for every
    user of the directory and every stock of the watch list, the buy
    phase does nothing, whatever the prices.  An empty user directory
    is one such case. *)
Theorem buy_phase_all_suppressed w sh s :
  (∀ row, row ∈ ath_data sh → ath_Stock row ≠ None) →
  (∀ row stock user, row ∈ ath_data sh → ath_Stock row = Some (CStr stock) →
     user ∈ user_map sh →
     buy_alert_sent_this_month (alert_log_data sh) user.1 stock
       (strftime_Ym (w_now w)) = true) →
  buy_phase w sh s = (Ok tt, s).
Proof.
  intros Hcol Hall. unfold buy_phase.
  destruct (map_M_index_Stock_ok _ s Hcol) as [cells Hcells].
  rewrite (bind_ok _ _ _ _ _ Hcells). lazy zeta.
  apply for_each_quiet. intros row Hrow.
  unfold buy_for_row, index_Stock.
  destruct (ath_Stock row) as [stock|] eqn:E; [|by destruct (Hcol row Hrow)].
  unfold mbind, M_bind, bind, ret.
  destruct (_ || _); [done|].
  destruct (prices_get _ _); [|done].
  destruct stock as [|stock| |]; try done.
  destruct (py_float _); [|done]. simpl.
  apply for_each_quiet. intros [user_name info] Huser.
  apply buy_for_user_blocked. by apply (Hall row stock (user_name, info)).
Qed.

(** *** The price dict *)

(** The dict is that of the requested strings: a symbol that is no
    string leaves nothing in it. *)
Lemma get_prices_text hist symbols :
  get_prices hist symbols = get_prices hist (CStr <$> text_symbols symbols).
Proof.
  apply map_eq. intros symbol. rewrite !get_prices_lookup.
  destruct (decide (symbol ∈ text_symbols symbols)) as [H1|H1],
    (decide (symbol ∈ text_symbols (CStr <$> text_symbols symbols))) as [H2|H2];
    try done; rewrite elem_of_text_symbols in H2.
  - destruct H2. apply list_elem_of_fmap. by exists symbol.
  - apply list_elem_of_fmap in H2 as (s0 & [= ->] & H2). done.
Qed.


(** *** Repeating one evaluation *)

(** X8. A new buy key evaluated [n] times in a row, above the
    ATH and without a record in the log: the counter ends at
    [min n 5], and what was sent is exactly the alerts numbered x1 to
    x[min n 5], in that order, each to the channels the user has. *)
Theorem repeated_buy_evaluations w log ym today stock ath live user_name info s n :
  let key := buy_alert_key user_name stock ath today in
  let step := λ s, (buy_for_user w log ym today stock ath live
                      (user_name, info) s).2 in
  let alert := λ i, dispatch (telegram_id info) (email info)
                      ("BUY ALERT for " +:+ stock)
                      (buy_message stock live ath i) in
  buy_alert_sent_this_month log user_name stock ym = false →
  (ath <? live)%float = true →
  alert_counters s !! key = None →
  default 0 (alert_counters (Nat.iter n step s) !! key) = n `min` MAX_ALERTS_PER_TRIGGER
  ∧ notifications (trace (Nat.iter n step s))
    = notifications (trace s)
      ++ mjoin (alert <$> seq 0 (n `min` MAX_ALERTS_PER_TRIGGER)).
Proof.
  intros key step alert Hlog Hgt Hnew.
  induction n as [|n [IHc IHt]].
  - cbn. rewrite Hnew. cbn. by rewrite app_nil_r.
  - change (Nat.iter (S n) step s) with (step (Nat.iter n step s)).
    set (sn := Nat.iter n step s) in *.
    assert (step sn = (buy_for_user w log ym today stock ath live
                         (user_name, info) sn).2) as -> by done.
    destruct (decide (n < MAX_ALERTS_PER_TRIGGER)) as [Hlt|Hge].
    + assert (default 0 (alert_counters sn !! key) < MAX_ALERTS_PER_TRIGGER) as Hc
        by (rewrite IHc; lia).
      rewrite (buy_for_user_fired w log ym today stock ath live
                 user_name info sn Hlog Hgt Hc).
      match goal with
      | |- context [when ?b (log_buy_alert_month ?w0 ?u ?st ?ym0) ?s1] =>
          pose proof (log_keeps b w0 u st ym0 s1) as [Hk1 Ht1]
      end.
      rewrite Hk1, Ht1. cbn [alert_counters trace]. fold key.
      rewrite lookup_insert_eq. cbn [default from_option id].
      rewrite IHc. split; [lia|].
      rewrite notifications_app, notifications_dispatch, IHt.
      replace (S n `min` MAX_ALERTS_PER_TRIGGER) with (S (n `min` MAX_ALERTS_PER_TRIGGER))
        by lia.
      rewrite seq_S, fmap_app, join_app. cbn [fmap list_fmap mjoin list_join].
      rewrite app_nil_r, <- app_assoc.
      by replace (n `min` MAX_ALERTS_PER_TRIGGER) with n by lia.
    + assert (alert_counters sn !! key = Some MAX_ALERTS_PER_TRIGGER) as Hk.
      { destruct (alert_counters sn !! key) as [c|]; cbn in IHc.
        - f_equal. lia.
        - unfold MAX_ALERTS_PER_TRIGGER in *. lia. }
      rewrite (buy_for_user_at_cap w log ym today stock ath live
                 user_name info sn _ Hlog Hgt Hk) by done.
      pose proof (log_keeps (MAX_ALERTS_PER_TRIGGER =? MAX_ALERTS_PER_TRIGGER)
                    w user_name stock ym sn) as [Hk1 Ht1].
      rewrite Hk1, Ht1, Hk, IHt. cbn [default from_option id].
      replace (S n `min` MAX_ALERTS_PER_TRIGGER) with (n `min` MAX_ALERTS_PER_TRIGGER)
        by lia.
      split; [lia|done].
Qed.

(** X9. A new sell key evaluated [n] times in a row while its
    signal holds: the counter ends at [min n 5] and the trace gains
    exactly the alerts numbered x1 to x[min n 5], and nothing else. *)
Theorem repeated_sell_evaluations um user_name stock live buy sma10 sma20 s n :
  let reason := (sell_decision live buy sma10 sma20).2 in
  let key := sell_alert_key user_name stock reason in
  let step := λ s, (sell_for_holding um user_name stock live buy
                      sma10 sma20 s).2 in
  let alert := λ i, dispatch (from_option telegram_id "" (user_lookup um user_name))
                      (from_option email "" (user_lookup um user_name))
                      ("SELL ALERT for " +:+ stock)
                      (sell_message stock live buy reason i) in
  (sell_decision live buy sma10 sma20).1 = true →
  alert_counters s !! key = None →
  default 0 (alert_counters (Nat.iter n step s) !! key) = n `min` MAX_ALERTS_PER_TRIGGER
  ∧ trace (Nat.iter n step s)
    = trace s ++ mjoin (alert <$> seq 0 (n `min` MAX_ALERTS_PER_TRIGGER)).
Proof.
  intros reason key step alert Hd Hnew.
  induction n as [|n [IHc IHt]].
  - cbn. rewrite Hnew. cbn. by rewrite app_nil_r.
  - change (Nat.iter (S n) step s) with (step (Nat.iter n step s)).
    set (sn := Nat.iter n step s) in *.
    assert (step sn = (sell_for_holding um user_name stock live buy
                         sma10 sma20 sn).2) as -> by done.
    destruct (decide (n < MAX_ALERTS_PER_TRIGGER)) as [Hlt|Hge].
    + assert (default 0 (alert_counters sn !! key) < MAX_ALERTS_PER_TRIGGER) as Hc
        by (rewrite IHc; lia).
      rewrite (sell_for_holding_fired um user_name stock live buy
                 sma10 sma20 sn Hd Hc).
      cbn [snd alert_counters trace]. fold reason key.
      rewrite lookup_insert_eq. cbn [default from_option id].
      rewrite IHc. split; [lia|]. rewrite IHt.
      replace (S n `min` MAX_ALERTS_PER_TRIGGER) with (S (n `min` MAX_ALERTS_PER_TRIGGER))
        by lia.
      rewrite seq_S, fmap_app, join_app. cbn [fmap list_fmap mjoin list_join].
      rewrite app_nil_r, <- app_assoc.
      by replace (n `min` MAX_ALERTS_PER_TRIGGER) with n by lia.
    + rewrite sell_for_holding_at_cap by (fold reason key; rewrite IHc; lia).
      cbn [snd]. rewrite IHc, IHt.
      replace (S n `min` MAX_ALERTS_PER_TRIGGER) with (n `min` MAX_ALERTS_PER_TRIGGER)
        by lia.
      split; [lia|done].
Qed.

(** *** One evaluation touches one counter *)

Lemma buy_for_user_frame w log ym today stock ath live user_name info s key :
  key ≠ buy_alert_key user_name stock ath today →
  alert_counters
    (buy_for_user w log ym today stock ath live (user_name, info) s).2
    !! key
  = alert_counters s !! key.
Proof.
  intros Hne.
  destruct (buy_for_user_cases w log ym today stock ath live user_name info s)
    as [-> | [[_ ->] | [_ ->]]].
  - done.
  - match goal with
    | |- context [when ?b (log_buy_alert_month ?w0 ?u ?st ?ym0) ?s1] =>
        pose proof (log_keeps b w0 u st ym0 s1) as [Hk1 _]
    end.
    rewrite Hk1. cbn [alert_counters]. by rewrite lookup_insert_ne.
  - match goal with
    | |- context [when ?b (log_buy_alert_month ?w0 ?u ?st ?ym0) ?s1] =>
        pose proof (log_keeps b w0 u st ym0 s1) as [Hk1 _]
    end.
    by rewrite Hk1.
Qed.

Lemma sell_for_holding_frame um user_name stock live buy sma10 sma20 s key :
  key ≠ sell_alert_key user_name stock
          (sell_decision live buy sma10 sma20).2 →
  alert_counters
    (sell_for_holding um user_name stock live buy sma10 sma20 s).2
    !! key
  = alert_counters s !! key.
Proof.
  intros Hne.
  destruct (sell_for_holding_cases um user_name stock live buy sma10 sma20 s)
    as [-> | (_ & _ & ->)]; [done|].
  cbn [snd alert_counters]. by rewrite lookup_insert_ne.
Qed.

Lemma only_keys_preorder P : PreOrder (only_keys P).
Proof.
  split.
  - by intros s key _.
  - intros s1 s2 s3 H1 H2 key Hk. by rewrite (H2 key Hk), (H1 key Hk).
Qed.

Lemma only_keys_buy_for_user w log ym today stock ath live user :
  respects (only_keys is_buy_key)
    (buy_for_user w log ym today stock ath live user).
Proof.
  destruct user as [user_name info]. intros s key Hk.
  apply buy_for_user_frame. intros ->. apply Hk.
  unfold buy_alert_key. by eexists.
Qed.

Lemma only_keys_sell_for_holding um user_name stock live buy sma10 sma20 :
  respects (only_keys is_sell_key)
    (sell_for_holding um user_name stock live buy sma10 sma20).
Proof.
  intros s key Hk. apply sell_for_holding_frame. intros ->. apply Hk.
  unfold sell_alert_key. by eexists.
Qed.

(** X10. An evaluation changes the counter of its own key only;
    hence the buy phase changes no counter outside the keys that start
    with "buy:", the sell phase none outside those that start with
    "sell:", and neither phase touches a counter of the other. *)
Theorem phases_keep_to_their_keys :
  (∀ w log ym today stock ath live user_name info s key,
     key ≠ buy_alert_key user_name stock ath today →
     alert_counters
       (buy_for_user w log ym today stock ath live (user_name, info) s).2
       !! key
     = alert_counters s !! key)
  ∧ (∀ um user_name stock live buy sma10 sma20 s key,
     key ≠ sell_alert_key user_name stock
             (sell_decision live buy sma10 sma20).2 →
     alert_counters
       (sell_for_holding um user_name stock live buy sma10 sma20 s).2
       !! key
     = alert_counters s !! key)
  ∧ (∀ w sh s key, ¬ is_buy_key key →
     alert_counters (buy_phase w sh s).2 !! key
     = alert_counters s !! key)
  ∧ (∀ w sh s key, ¬ is_sell_key key →
     alert_counters (sell_phase w sh s).2 !! key
     = alert_counters s !! key)
  ∧ (∀ key, ¬ (is_buy_key key ∧ is_sell_key key)).
Proof.
  split; [|split; [|split; [|split]]].
  - intros. by apply buy_for_user_frame.
  - intros. by apply sell_for_holding_frame.
  - intros w sh s key Hk.
    by apply (steps_buy_phase (only_keys is_buy_key) (only_keys_preorder _)
                only_keys_buy_for_user w sh s key).
  - intros w sh s key Hk.
    by apply (steps_sell_phase (only_keys is_sell_key) (only_keys_preorder _)
                only_keys_sell_for_holding w sh s key).
  - intros key [[r1 H1] [r2 H2]]. rewrite H1 in H2. discriminate H2.
Qed.

(** *** Alert keys *)

Lemma split_at_colon a b x y :
  no_colon a = true → no_colon b = true →
  a +:+ ":" +:+ x = b +:+ ":" +:+ y → a = b ∧ x = y.
Proof.
  revert b. induction a as [|c a IH]; intros [|d b] Ha Hb H; cbn in *.
  - split; [done|]. by injection H.
  - injection H as <- _. by rewrite Ascii.eqb_refl in Hb.
  - injection H as -> _. by rewrite Ascii.eqb_refl in Ha.
  - injection H as -> H.
    apply andb_true_iff in Ha as [_ Ha]. apply andb_true_iff in Hb as [_ Hb].
    destruct (IH b Ha Hb H) as [-> ->]. done.
Qed.

(** X11. The key of a buy alert holds the day: for one user,
    stock and ATH the keys of two different days differ, so the counter
    of a day says nothing about the next day.  And no buy key is a sell
    key. *)
Theorem buy_key_is_per_day user_name stock ath today today' :
  today ≠ today' →
  buy_alert_key user_name stock ath today
  ≠ buy_alert_key user_name stock ath today'
  ∧ (∀ w log ym live info s,
       alert_counters
         (buy_for_user w log ym today stock ath live (user_name, info) s).2
         !! buy_alert_key user_name stock ath today'
       = alert_counters s !! buy_alert_key user_name stock ath today')
  ∧ (∀ seller held reason,
       buy_alert_key user_name stock ath today
       ≠ sell_alert_key seller held reason).
Proof.
  intros Hday.
  assert (buy_alert_key user_name stock ath today
          ≠ buy_alert_key user_name stock ath today') as Hne.
  { unfold buy_alert_key. intros H. by repeat (apply String.app_inj in H). }
  split; [exact Hne|]. split.
  - intros w log ym live info s.
    by apply buy_for_user_frame.
  - intros seller held reason H. unfold buy_alert_key, sell_alert_key in H.
    discriminate H.
Qed.

(** X12. When the user names and the stock symbols hold no colon,
    and neither does the printed ATH, two buy keys are equal only for
    the same user, stock, printed ATH and day; likewise two sell keys
    are equal only for the same user, stock and reason. *)
Theorem alert_keys_are_injective :
  (∀ user_name stock ath today user_name' stock' ath' today',
     no_colon user_name = true → no_colon user_name' = true →
     no_colon stock = true → no_colon stock' = true →
     no_colon (str_of_float ath) = true → no_colon (str_of_float ath') = true →
     buy_alert_key user_name stock ath today
     = buy_alert_key user_name' stock' ath' today' →
     user_name = user_name' ∧ stock = stock'
     ∧ str_of_float ath = str_of_float ath' ∧ today = today')
  ∧ (∀ user_name stock reason user_name' stock' reason',
     no_colon (str_opt user_name) = true → no_colon (str_opt user_name') = true →
     no_colon stock = true → no_colon stock' = true →
     sell_alert_key user_name stock reason = sell_alert_key user_name' stock' reason' →
     str_opt user_name = str_opt user_name' ∧ stock = stock' ∧ reason = reason').
Proof.
  split.
  - intros u st a d u' st' a' d' Hu Hu' Hst Hst' Ha Ha' H.
    unfold buy_alert_key in H. apply String.app_inj in H.
    apply split_at_colon in H as [-> H]; [|done|done].
    apply split_at_colon in H as [-> H]; [|done|done].
    apply split_at_colon in H as [-> ->]; done.
  - intros u st r u' st' r' Hu Hu' Hst Hst' H.
    unfold sell_alert_key in H. apply String.app_inj in H.
    apply split_at_colon in H as [-> H]; [|done|done].
    apply split_at_colon in H as [-> ->]; done.
Qed.

(** *** When a holding row acts *)

(** X13. A row of the holdings has an effect exactly when its Stock
    cell is a non-empty string, its buy price parses, the stock has a
    price, both moving averages parse (a blank one is zero), the sell
    signal holds and the counter of the key is under the cap.  In particular a moving
    average that does not parse silences the row even when it is the
    average of the other regime. *)
Theorem sell_row_acts_iff um prices row s :
  sell_for_row um prices row s ≠ (Ok tt, s)
  ↔ ∃ stock buy_price live_price sma_10m sma_20m,
      act_Stock row = Some (CStr stock) ∧ nonempty stock = true
      ∧ py_float (Buy_Price row) = Some buy_price
      ∧ prices_get prices (CStr stock) = Some live_price
      ∧ py_float (py_or (SMA_10M row) (CInt 0)) = Some sma_10m
      ∧ py_float (py_or (SMA_20M row) (CInt 0)) = Some sma_20m
      ∧ (sell_decision live_price buy_price sma_10m sma_20m).1 = true
      ∧ default 0 (alert_counters s
                   !! sell_alert_key (Name row) stock
                        (sell_decision live_price buy_price
                           sma_10m sma_20m).2)
        < MAX_ALERTS_PER_TRIGGER.
Proof.
  split.
  - intros Hact. unfold sell_for_row in Hact.
    destruct (act_Stock row) as [stock|] eqn:Hs; [|done].
    destruct (truthy stock) eqn:Hn; [|done]. simpl in Hact.
    destruct (py_float (Buy_Price row)) as [buy_price|] eqn:Hb; [|done].
    destruct (prices_get prices stock) as [live_price|] eqn:Hl; [|done].
    destruct stock as [|stock| |]; try done. cbn [truthy] in Hn.
    destruct (py_float (py_or (SMA_10M row) (CInt 0)))
      as [sma_10m|] eqn:H10; [|done].
    destruct (py_float (py_or (SMA_20M row) (CInt 0)))
      as [sma_20m|] eqn:H20; [|done].
    exists stock, buy_price, live_price, sma_10m, sma_20m.
    repeat (split; [done|]).
    destruct (sell_decision live_price buy_price sma_10m sma_20m).1 eqn:Hd.
    2: { destruct Hact. by apply sell_for_holding_quiet. }
    split; [done|].
    destruct (decide (default 0 (alert_counters s
                !! sell_alert_key (Name row) stock
                     (sell_decision live_price buy_price
                        sma_10m sma_20m).2) < MAX_ALERTS_PER_TRIGGER))
      as [Hlt|Hge]; [done|].
    destruct Hact. apply sell_for_holding_at_cap. lia.
  - intros (stock & buy_price & live_price & sma_10m & sma_20m
            & Hs & Hn & Hb & Hl & H10 & H20 & Hd & Hc).
    rewrite (sell_for_row_parsed um prices row stock
               buy_price live_price sma_10m sma_20m s Hs Hn Hb Hl H10 H20).
    rewrite (sell_for_holding_fired um (Name row) stock live_price
               buy_price sma_10m sma_20m s Hd Hc).
    intros Heq.
    apply (f_equal (λ p, alert_counters p.2
                          !! sell_alert_key (Name row) stock
                               (sell_decision live_price buy_price
                                  sma_10m sma_20m).2)) in Heq.
    cbn [snd alert_counters] in Heq. rewrite lookup_insert_eq in Heq.
    destruct (alert_counters s !! _); cbn in Heq; [injection Heq; lia | done].
Qed.

(** *** The alert log *)

(** X14. Whether a month is blocked for a user and a stock depends on
    the log as a set of rows: more rows never unblock, and the rows of
    another month, of another alert type, of another user or of another
    stock never block. *)
Theorem alert_log_blocks_by_its_rows log user stock ym :
  (∀ log', (∀ r, r ∈ log → r ∈ log') →
     buy_alert_sent_this_month log user stock ym = true →
     buy_alert_sent_this_month log' user stock ym = true)
  ∧ (∀ more, buy_alert_sent_this_month (log ++ more) user stock ym
             = buy_alert_sent_this_month log user stock ym
               || buy_alert_sent_this_month more user stock ym)
  ∧ ((∀ r, r ∈ log → User r ≠ Some user ∨ Stock r ≠ Some stock
                      ∨ YearMonth r ≠ Some ym ∨ AlertType r ≠ Some "buy") →
     buy_alert_sent_this_month log user stock ym = false).
Proof.
  split; [|split].
  - intros log' Hsub H. apply buy_alert_sent_this_month_true in H as (r & Hr & H).
    apply buy_alert_sent_this_month_true. exists r. split; [by apply Hsub | done].
  - intros more. induction log as [|r log IH]; [done|].
    cbn [app buy_alert_sent_this_month]. by destruct (_ && _).
  - intros Hnone.
    destruct (buy_alert_sent_this_month log user stock ym) eqn:E; [|done].
    apply buy_alert_sent_this_month_true in E as (r & Hr & H1 & H2 & H3 & H4).
    destruct (Hnone r Hr) as [H|[H|[H|H]]]; by destruct H.
Qed.

(** *** The user directory *)

Lemma dict_get_set {V} (d : list (string * V)) k v k' :
  dict_get (dict_set d k v) k' = if decide (k = k') then Some v else dict_get d k'.
Proof.
  induction d as [|[k0 v0] d IH]; simpl.
  - by destruct (decide (k = k')).
  - destruct (decide (k0 = k)) as [->|Hne]; simpl.
    + by destruct (decide (k = k')).
    + destruct (decide (k0 = k')) as [->|Hne'].
      * by rewrite decide_False by done.
      * exact IH.
Qed.

Lemma dict_set_keys {V} (d : list (string * V)) k v k' :
  k' ∈ (dict_set d k v).*1 ↔ k' = k ∨ k' ∈ d.*1.
Proof.
  induction d as [|[k0 v0] d IH]; simpl.
  - rewrite list_elem_of_singleton. split; [by left|].
    intros [?|Hin]; [done | by apply elem_of_nil in Hin].
  - destruct (decide (k0 = k)) as [->|Hne]; simpl.
    + rewrite !elem_of_cons. split; [intros [?|?] | intros [?|[?|?]]]; auto.
    + rewrite !elem_of_cons, IH. split; intros [?|[?|?]]; auto.
Qed.

Lemma dict_set_NoDup {V} (d : list (string * V)) k v :
  NoDup d.*1 → NoDup (dict_set d k v).*1.
Proof.
  induction d as [|[k0 v0] d IH]; simpl; intros Hd.
  - apply NoDup_singleton.
  - apply NoDup_cons in Hd as [Hk0 Hd].
    destruct (decide (k0 = k)) as [->|Hne]; simpl.
    + by apply NoDup_cons.
    + apply NoDup_cons. split; [|by apply IH].
      rewrite dict_set_keys. intros [?|?]; done.
Qed.

Lemma dict_get_None {V} (d : list (string * V)) k :
  dict_get d k = None ↔ k ∉ d.*1.
Proof.
  induction d as [|[k0 v0] d IH]; simpl.
  - split; [intros _; apply not_elem_of_nil | done].
  - destruct (decide (k0 = k)) as [->|Hne].
    + split; [done|]. intros H. destruct H. left.
    + rewrite IH, not_elem_of_cons. split; [by intros ? | by intros [_ ?]].
Qed.

Section DirectoryProperties.
Context (str_strip : string → string).

(** What [add_users] keeps and adds. *)
Lemma add_users_spec user_data um0 um :
  add_users str_strip um0 user_data = Some um →
  (NoDup um0.*1 → NoDup um.*1)
  ∧ (∀ name, name ∈ um.*1 ↔
       name ∈ um0.*1
       ∨ ∃ u, u ∈ user_data ∧ dir_Name u = Some name ∧ nonempty name = true)
  ∧ (∀ name, (∀ u, u ∈ user_data → dir_Name u ≠ Some name) →
       dict_get um name = dict_get um0 name).
Proof.
  revert um0. induction user_data as [|u rest IH]; intros um0 H; simpl in H.
  - injection H as <-. split; [done|]. split; [|done].
    intros name. split; [by left|]. intros [?|(u & Hu & _)]; [done|].
    by apply elem_of_nil in Hu.
  - destruct (dir_Name u) as [n|] eqn:Hn.
    2: { destruct (IH um0 H) as (Hd & Hk & Hg). split; [done|]. split.
         - intros name. rewrite Hk. split; intros [?|(u' & Hu' & Hn' & ?)]; auto.
           + right. exists u'. split; [by right|done].
           + apply elem_of_cons in Hu' as [->|Hu']; [congruence|].
             right. by exists u'.
         - intros name Hno. apply Hg. intros u' Hu'. apply Hno. by right. }
    destruct (nonempty n) eqn:Hne.
    2: { destruct (IH um0 H) as (Hd & Hk & Hg). split; [done|]. split.
         - intros name. rewrite Hk. split; intros [?|(u' & Hu' & Hn' & ?)]; auto.
           + right. exists u'. split; [by right|done].
           + apply elem_of_cons in Hu' as [->|Hu']; [congruence|].
             right. by exists u'.
         - intros name Hno. apply Hg. intros u' Hu'. apply Hno. by right. }
    destruct (user_entry str_strip u) as [info|] eqn:He; [|done].
    destruct (IH _ H) as (Hd & Hk & Hg). split; [|split].
    + intros H0. by apply Hd, dict_set_NoDup.
    + intros name. rewrite Hk, dict_set_keys. split.
      * intros [[->|?]|(u' & Hu' & ?)]; auto.
        -- right. exists u. split; [left|done].
        -- right. exists u'. split; [by right|done].
      * intros [?|(u' & Hu' & Hn' & Hne')]; auto.
        apply elem_of_cons in Hu' as [->|Hu'].
        -- left. left. congruence.
        -- right. by exists u'.
    + intros name Hno. rewrite Hg by (intros u' Hu'; apply Hno; by right).
      rewrite dict_get_set. rewrite decide_False; [done|].
      intros ->. by apply (Hno u); [left|].
Qed.

(** X15. The user map of [load_sheets] is a dict: no name occurs
    twice, its names are the non-empty names of the directory rows, and
    so neither a blank name nor a missing one is ever found in it. *)
Theorem user_map_is_a_dict user_data um :
  load_user_map str_strip user_data = Some um →
  NoDup um.*1
  ∧ (∀ name, name ∈ um.*1 ↔
       ∃ u, u ∈ user_data ∧ dir_Name u = Some name ∧ nonempty name = true)
  ∧ user_lookup um (Some "") = None
  ∧ user_lookup um None = None.
Proof.
  intros H. destruct (add_users_spec _ _ _ H) as (Hd & Hk & _).
  split; [apply Hd, NoDup_nil_2|]. split; [|split; [|done]].
  - intros name. rewrite Hk. split; [|by right].
    intros [Hin|?]; [by apply elem_of_nil in Hin | done].
  - simpl. apply dict_get_None. rewrite Hk.
    intros [Hin|(u & _ & _ & Hne)]; [by apply elem_of_nil in Hin | done].
Qed.

(** X16. When a name stands on several rows of the directory, its
    last row is the one that counts: the entry has the Telegram ID of
    that row as text (empty when the cell is blank or zero) and its
    stripped Email. *)
Theorem user_map_last_row_wins before u after name info um :
  dir_Name u = Some name → nonempty name = true →
  user_entry str_strip u = Some info →
  (∀ u', u' ∈ after → dir_Name u' ≠ Some name) →
  load_user_map str_strip (before ++ u :: after) = Some um →
  dict_get um name = Some info
  ∧ telegram_id info = py_str (py_or (dir_Telegram_ID u) (CStr ""))
  ∧ (∀ s, dir_Email u = CStr s → email info = str_strip s)
  ∧ (truthy (dir_Telegram_ID u) = false → telegram_id info = "").
Proof.
  intros Hn Hne He Hafter. unfold load_user_map. generalize (@nil (string * user_info)).
  induction before as [|u0 before IH]; intros um0 H; simpl in H.
  - rewrite Hn, Hne, He in H.
    destruct (add_users_spec _ _ _ H) as (_ & _ & Hg).
    split; [|split; [|split]].
    + rewrite (Hg name Hafter), dict_get_set. by rewrite decide_True.
    + unfold user_entry in He. destruct (email_of str_strip _); [|done]. by injection He as <-.
    + intros s Hs. unfold user_entry, email_of in He. rewrite Hs in He.
      by injection He as <-.
    + intros Hf. unfold user_entry in He. destruct (email_of str_strip _); [|done].
      injection He as <-. simpl. unfold py_or. by rewrite Hf.
  - destruct (dir_Name u0) as [n0|]; [|by apply (IH um0)].
    destruct (nonempty n0); [|by apply (IH um0)].
    destruct (user_entry str_strip u0) as [info0|]; [|done].
    by apply (IH _ H).
Qed.

Lemma user_entry_None u :
  user_entry str_strip u = None
  ↔ (∃ z, dir_Email u = CInt z) ∨ (∃ f, dir_Email u = CFloat f).
Proof.
  unfold user_entry, email_of. destruct (dir_Email u) as [|s|z|f]; split; try done.
  - intros [[? ?]|[? ?]]; done.
  - intros [[? ?]|[? ?]]; done.
  - intros _. left. by exists z.
  - intros _. right. by exists f.
Qed.

Lemma add_users_None user_data um0 :
  add_users str_strip um0 user_data = None
  ↔ ∃ u name, u ∈ user_data ∧ dir_Name u = Some name ∧ nonempty name = true
              ∧ user_entry str_strip u = None.
Proof.
  revert um0. induction user_data as [|u rest IH]; intros um0; simpl.
  - split; [done|]. intros (u & name & Hu & _). by apply elem_of_nil in Hu.
  - destruct (dir_Name u) as [n|] eqn:Hn.
    2: { rewrite IH. split.
         - intros (u' & name & Hu' & H). exists u', name. split; [by right|done].
         - intros (u' & name & Hu' & Hn' & H).
           apply elem_of_cons in Hu' as [->|Hu']; [congruence|]. by exists u', name. }
    destruct (nonempty n) eqn:Hne.
    2: { rewrite IH. split.
         - intros (u' & name & Hu' & H). exists u', name. split; [by right|done].
         - intros (u' & name & Hu' & Hn' & Hne' & H).
           apply elem_of_cons in Hu' as [->|Hu']; [congruence|]. by exists u', name. }
    destruct (user_entry str_strip u) as [info|] eqn:He.
    + rewrite IH. split.
      * intros (u' & name & Hu' & H). exists u', name. split; [by right|done].
      * intros (u' & name & Hu' & Hn' & Hne' & H).
        apply elem_of_cons in Hu' as [->|Hu']; [congruence|]. by exists u', name.
    + split; [|done]. intros _. exists u, n. split; [left|done].
Qed.

(** X17. The user map cannot be built exactly when a named row of the
    directory has a number in its Email cell; a row without a name is
    not looked at, whatever its Email cell holds. *)
Theorem user_map_fails_iff user_data :
  load_user_map str_strip user_data = None
  ↔ ∃ u name, u ∈ user_data ∧ dir_Name u = Some name ∧ nonempty name = true
              ∧ ((∃ z, dir_Email u = CInt z) ∨ (∃ f, dir_Email u = CFloat f)).
Proof.
  unfold load_user_map. rewrite add_users_None.
  split; intros (u & name & Hu & Hn & Hne & H); exists u, name;
    (split; [done|]); (split; [done|]); (split; [done|]); by apply user_entry_None.
Qed.

End DirectoryProperties.

(** *** How much one scan can send *)

Lemma for_each_sends {A} (l : list A) (body : A → M unit) n :
  (∀ x s, length (notifications (trace (body x s).2))
          ≤ length (notifications (trace s)) + n) →
  ∀ s, length (notifications (trace (for_each l body s).2))
       ≤ length (notifications (trace s)) + n * length l.
Proof.
  intros Hb. induction l as [|x l IH]; intros s; simpl; [lia|].
  unfold mbind, M_bind, bind. pose proof (Hb x s) as Hx.
  destruct (body x s) as [[[]|e] s1]; simpl in *.
  - pose proof (IH s1). lia.
  - lia.
Qed.

Lemma buy_for_user_sends w log ym today stock ath live user s :
  length (notifications
            (trace (buy_for_user w log ym today stock ath live user s).2))
  ≤ length (notifications (trace s)) + 2.
Proof.
  destruct user as [user_name info].
  destruct (buy_for_user_cases w log ym today stock ath live user_name info s)
    as [-> | [[_ ->] | [_ ->]]].
  - simpl. lia.
  - match goal with
    | |- context [when ?b (log_buy_alert_month ?w0 ?u ?st ?ym0) ?s1] =>
        pose proof (log_keeps b w0 u st ym0 s1) as [_ Ht1]
    end.
    rewrite Ht1. cbn [trace].
    rewrite notifications_app, length_app, notifications_dispatch.
    match goal with
    | |- context [dispatch ?a ?b ?c ?d] => pose proof (length_dispatch a b c d)
    end.
    lia.
  - match goal with
    | |- context [when ?b (log_buy_alert_month ?w0 ?u ?st ?ym0) ?s1] =>
        pose proof (log_keeps b w0 u st ym0 s1) as [_ Ht1]
    end.
    rewrite Ht1. lia.
Qed.

Lemma sell_for_row_sends um prices row s :
  length (notifications
            (trace (sell_for_row um prices row s).2))
  ≤ length (notifications (trace s)) + 2.
Proof.
  unfold sell_for_row.
  destruct (act_Stock row) as [stock|]; [|simpl; lia].
  destruct (negb _); [simpl; lia|].
  destruct (py_float (Buy_Price row)) as [buy_price|]; [|simpl; lia].
  destruct (prices_get _ _) as [live_price|], stock as [|stock| |]; try (simpl; lia).
  destruct (py_float _) as [sma_10m|]; [|simpl; lia].
  destruct (py_float _) as [sma_20m|]; [|simpl; lia].
  destruct (sell_for_holding_cases um (Name row) stock live_price buy_price
              sma_10m sma_20m s) as [-> | (_ & _ & ->)].
  - simpl. lia.
  - cbn [snd trace].
    rewrite notifications_app, length_app, notifications_dispatch.
    match goal with
    | |- context [dispatch ?a ?b ?c ?d] => pose proof (length_dispatch a b c d)
    end.
    lia.
Qed.

Lemma map_M_index_Stock_state (rows : list ath_row) s :
  (map_M index_Stock rows s).2 = s.
Proof.
  induction rows as [|row rows IH]; simpl; [done|].
  unfold mbind, M_bind, bind.
  assert (index_Stock row s = (Raised (KeyError "Stock"), s)
          ∨ ∃ stock, index_Stock row s = (Ok stock, s)) as [-> | [stock ->]].
  { unfold index_Stock. destruct (ath_Stock row); [right; by eexists | by left]. }
  - done.
  - destruct (map_M index_Stock rows s) as [[cells|e] s1]; simpl in *; by subst.
Qed.

(** X18. One scan sends at most one post and one mail for each pair
    of a watch-list row and a user, and for each holding; a scan that
    cannot load the sheets sends nothing. *)
Theorem scan_sends_bounded w s :
  match w_load_sheets w with
  | Ok sh =>
      length (notifications (trace (scan w s)))
      ≤ length (notifications (trace s))
        + 2 * (length (ath_data sh) * length (user_map sh) + length (active_data sh))
  | Raised _ =>
      notifications (trace (scan w s))
      = notifications (trace s)
  end.
Proof.
  rewrite scan_eq. cbn [trace]. rewrite notifications_app. cbn. rewrite app_nil_r.
  unfold cycle, mbind, M_bind, bind, load_sheets.
  destruct (w_load_sheets w) as [sh|e]; [|done].
  assert (length (notifications
                    (trace (buy_phase w sh s).2))
          ≤ length (notifications (trace s))
            + 2 * length (user_map sh) * length (ath_data sh)) as Hbuy.
  { unfold buy_phase, mbind, M_bind, bind.
    pose proof (map_M_index_Stock_state (ath_data sh) s) as Hst.
    destruct (map_M index_Stock (ath_data sh) s) as [[cells|e] s0];
      simpl in Hst; subst s0; [|simpl; lia].
    lazy zeta. apply for_each_sends. intros row s0.
    unfold buy_for_row, mbind, M_bind, bind, index_Stock, ret, raise.
    destruct (ath_Stock row) as [stock|]; [|simpl; lia].
    destruct (_ || _); [simpl; lia|].
    destruct (prices_get _ _) as [live_price|], stock as [|stock| |]; try (simpl; lia).
    destruct (py_float _) as [ath_float|]; [|simpl; lia]. cbn [py_float].
    pose proof (for_each_sends (user_map sh)
                  (buy_for_user w (alert_log_data sh)
                     (strftime_Ym (w_now w)) (strftime_Ymd (w_now w)) stock
                     ath_float live_price) 2
                  (λ user s1, buy_for_user_sends _ _ _ _ _ _ _ user s1) s0).
    lia. }
  destruct (buy_phase w sh s) as [[[]|e] s1];
    cbn [snd] in *; [|lia].
  unfold sell_phase.
  match goal with
  | |- context [get_prices ?h ?l] =>
      pose proof (for_each_sends (active_data sh)
                    (sell_for_row (user_map sh) (get_prices h l)) 2
                    (λ row s2, sell_for_row_sends _ _ row s2) s1) as Hsell
  end.
  lia.
Qed.

(** *** Stock cells that are no strings *)

(** X20. A row whose Stock cell is no string, as a cell of digits only
    that is read as an int, is never alerted on: the buy phase and the
    sell phase skip it, whatever the provider knows of the symbol and
    whatever the other columns hold.  A scan of sheets whose Stock
    cells are all of that kind does nothing but sleep. *)
Theorem non_text_stock_is_skipped w sh s :
  (∀ prices ym today row,
     (∀ stock, ath_Stock row ≠ Some (CStr stock)) → ath_Stock row ≠ None →
     buy_for_row w sh prices ym today row s = (Ok tt, s))
  ∧ (∀ um prices row,
     (∀ stock, act_Stock row ≠ Some (CStr stock)) →
     sell_for_row um prices row s = (Ok tt, s))
  ∧ (w_load_sheets w = Ok sh →
     (∀ row stock, row ∈ ath_data sh →
        ath_Stock row ≠ Some (CStr stock) ∧ ath_Stock row ≠ None) →
     (∀ row stock, row ∈ active_data sh → act_Stock row ≠ Some (CStr stock)) →
     cycle w s = (Ok tt, s)
     ∧ scan w s = {| alert_counters := alert_counters s;
                     trace := trace s ++ [Sleep CHECK_INTERVAL] |}).
Proof.
  assert (∀ prices ym today row,
            (∀ stock, ath_Stock row ≠ Some (CStr stock)) → ath_Stock row ≠ None →
            buy_for_row w sh prices ym today row s = (Ok tt, s)) as Hbuy.
  { intros prices ym today row Hno Hcol.
    destruct (ath_Stock row) as [stock|] eqn:E; [|done].
    apply (no_price_is_skipped w sh [] prices ym today stock s); [|done].
    destruct stock as [|stock| |]; try done. by destruct (Hno stock). }
  assert (∀ um prices row,
            (∀ stock, act_Stock row ≠ Some (CStr stock)) →
            sell_for_row um prices row s = (Ok tt, s)) as Hsell.
  { intros um prices row Hno.
    destruct (act_Stock row) as [stock|] eqn:E.
    - apply (no_price_is_skipped w sh um prices "" "" stock s); [|done].
      destruct stock as [|stock| |]; try done. by destruct (Hno stock).
    - unfold sell_for_row. by rewrite E. }
  split; [exact Hbuy|]. split; [exact Hsell|].
  intros Hload Hwatch Hheld.
  assert (cycle w s = (Ok tt, s)) as Hc.
  { unfold cycle. rewrite (bind_ok _ _ s sh s); [|unfold load_sheets; by rewrite Hload].
    assert (buy_phase w sh s = (Ok tt, s)) as Hb.
    { unfold buy_phase.
      destruct (map_M_index_Stock_ok (ath_data sh) s) as [cells Hcells].
      { intros row Hrow. apply (Hwatch row "" Hrow). }
      rewrite (bind_ok _ _ _ _ _ Hcells). lazy zeta.
      apply for_each_quiet. intros row Hrow.
      apply Hbuy; [intros stock; apply (Hwatch row stock Hrow)
                  | apply (Hwatch row "" Hrow)]. }
    rewrite (bind_ok _ _ _ _ _ Hb).
    unfold sell_phase. lazy zeta. apply for_each_quiet. intros row Hrow.
    apply Hsell. intros stock. by apply Hheld. }
  split; [exact Hc|]. rewrite scan_eq. by rewrite Hc.
Qed.

End Bot.

(** * Scenarios

    The properties above, at the scenario data. *)

(** [str_code] is injective. *)
Lemma str_code_inj x y : str_code x = str_code y → x = y.
Proof.
  unfold str_code. intros H.
  apply (inj pretty), (inj encode) in H. apply Prim2SF_inj.
  destruct (Prim2SF x), (Prim2SF y); simpl in H; congruence.
Qed.

(** The log holds the buy record of (U, AAA, 2024-05); AAA is at 105,
    above its ATH of 100. *)
Lemma suppression_record_blocks_buy_witness :
  buy_for_user str_demo world_AAA [record_U_AAA] "2024-05" "2024-05-07" "AAA"
    100 105 user_U init
  = (Ok tt, init).
Proof.
  apply suppression_record_blocks_buy.
  exists record_U_AAA. repeat split. left.
Defined.

(** The keys of U are at 5; seven scans of the AAA scenario. *)
Lemma capped_key_is_silent_witness :
  let key := buy_alert_key str_demo "U" "AAA" 100 "2024-05-07" in
  let skey := sell_alert_key (Some "U") "HHH" "Price below 20M SMA (160.0)" in
  let s' := (buy_for_user str_demo world_AAA [] "2024-05" "2024-05-07" "AAA"
               100 105 user_U (counting key 5)).2 in
  (notifications (trace s') = notifications (trace (counting key 5))
   ∧ alert_counters s' = alert_counters (counting key 5))
  ∧ sell_for_holding str_demo [user_U] (Some "U") "HHH" 150 100 0 160
      (counting skey 5)
    = (Ok tt, counting skey 5)
  ∧ default 0 (alert_counters
                 (main_loop float_of_str_demo str_demo upper_demo (replicate 7 world_AAA) init)
               !! key) ≤ 5.
Proof.
  destruct (capped_key_is_silent float_of_str_demo str_demo upper_demo) as (_ & Hb & Hs & Hl).
  split; [|split].
  - apply Hb. reflexivity.
  - apply Hs. reflexivity.
  - apply Hl.
Defined.

(** AAA at 105 and at 100, against an ATH of 100, for U, who has both
    channels and no counter yet. *)
Lemma buy_fires_iff_strictly_above_witness :
  let msg := buy_message str_demo "AAA" 105 100 0 in
  let s' := (buy_for_user str_demo world_AAA [] "2024-05" "2024-05-07" "AAA" 100 105
               user_U init).2 in
  (notifications (trace s')
   = [Telegram "42" msg; Email "u@example.org" "BUY ALERT for AAA" msg]
   ∧ alert_counters s' = {[ buy_alert_key str_demo "U" "AAA" 100 "2024-05-07" := 1 ]})
  ∧ buy_for_user str_demo world_AAA [] "2024-05" "2024-05-07" "AAA" 100 100
      user_U init
    = (Ok tt, init).
Proof.
  intros msg s'.
  destruct (buy_fires_iff_strictly_above str_demo world_AAA [] "2024-05"
              "2024-05-07" "AAA" 100 105 "U" user_U.2 init eq_refl)
    as (Hiff & _).
  destruct (buy_fires_iff_strictly_above str_demo world_AAA [] "2024-05"
              "2024-05-07" "AAA" 100 100 "U" user_U.2 init eq_refl)
    as (_ & _ & Heq & _).
  split; [|apply Heq; reflexivity].
  assert (default 0 (alert_counters init
                     !! buy_alert_key str_demo "U" "AAA" 100 "2024-05-07")
          < MAX_ALERTS_PER_TRIGGER) as Hlt by (vm_compute; lia).
  destruct (proj2 (Hiff Hlt) eq_refl) as [Hsent Hcount].
  split.
  - etrans; [exact Hsent|]. vm_compute. reflexivity.
  - etrans; [exact Hcount|]. vm_compute. reflexivity.
Defined.

(** Bought at 100: at 150 with a 20M average of 160; at 210 with a 10M
    average of 220; at 210 with a 10M average of zero. *)
Lemma sell_regime_switch_witness :
  sell_decision str_demo 150 100 0 160 = (true, "Price below 20M SMA (160.0)")
  ∧ sell_decision str_demo 210 100 220 0 = (true, "Price below 10M SMA (220.0)")
  ∧ (sell_decision str_demo 210 100 0 500).1 = false
  ∧ py_float float_of_str_demo (py_or (CStr "") (CInt 0)) = Some 0%float.
Proof.
  destruct (sell_regime_switch float_of_str_demo str_demo upper_demo 150 100 0 160)
    as (Hlong & _ & _ & Hunset).
  destruct (Hlong eq_refl) as (Hiff & Hreason & _).
  destruct (sell_regime_switch float_of_str_demo str_demo upper_demo 210 100 220 0)
    as (_ & Hshort & _).
  destruct (Hshort eq_refl) as (Hiff' & Hreason' & _).
  destruct (sell_regime_switch float_of_str_demo str_demo upper_demo 210 100 0 500)
    as (_ & Hzero & _).
  destruct (Hzero eq_refl) as (_ & _ & Hz & _).
  split; [|split; [|split]].
  - assert ((sell_decision str_demo 150 100 0 160).1 = true) as H1
      by (apply Hiff; by split).
    rewrite (surjective_pairing (sell_decision str_demo 150 100 0 160)).
    by rewrite (Hreason H1), H1.
  - assert ((sell_decision str_demo 210 100 220 0).1 = true) as H1
      by (apply Hiff'; by split).
    rewrite (surjective_pairing (sell_decision str_demo 210 100 220 0)).
    by rewrite (Hreason' H1), H1.
  - apply Hz. reflexivity.
  - apply Hunset. reflexivity.
Defined.

(** The holding HHH of U at 150, under its 20M average of 160. *)
Lemma sell_phase_never_logs_witness :
  rows_appended
    (trace (sell_phase float_of_str_demo str_demo upper_demo (world_of (Ok (sheets_HHH 160)))
              (sheets_HHH 160) init).2)
  = rows_appended (trace init)
  ∧ sell_for_holding str_demo [user_U] (Some "U") "HHH" 150 100 0 160 init
    ≠ (Ok tt, init).
Proof.
  destruct (sell_phase_never_logs float_of_str_demo str_demo upper_demo
              (world_of (Ok (sheets_HHH 160))) (sheets_HHH 160) init)
    as (Hrows & _ & Hcap).
  split; [exact Hrows|].
  intros Heq. apply (Hcap [user_U] (Some "U") "HHH" 150%float 100%float
                       0%float 160%float eq_refl capped_init) in Heq.
  discriminate Heq.
Defined.

(** The fifth alert of Q, who has no contact; a holding of Z, who is not
    in the directory. *)
Lemma no_contact_still_counts_witness :
  let key := buy_alert_key str_demo "Q" "AAA" 100 "2024-05-07" in
  let skey := sell_alert_key (Some "Z") "HHH" "Price below 20M SMA (160.0)" in
  buy_for_user str_demo world_AAA [] "2024-05" "2024-05-07" "AAA" 100 105
    user_Q (counting key 4)
  = (Ok tt,
     {| alert_counters := {[ key := 5 ]};
        trace := [AppendRow ["Q"; "AAA"; "2024-05"; "buy"; "2024-05-07 09:30:00"]] |})
  ∧ sell_for_holding str_demo [user_U] (Some "Z") "HHH" 150 100 0 160 init
    = (Ok tt, {| alert_counters := {[ skey := 1 ]}; trace := [] |}).
Proof.
  intros key skey.
  destruct (no_contact_still_counts str_demo) as [Hbuy Hsell].
  split.
  - refine (eq_trans
              (Hbuy world_AAA [] "2024-05" "2024-05-07" "AAA" 100%float 105%float
                 "Q" user_Q.2 (counting key 4) eq_refl eq_refl eq_refl eq_refl
                 _ eq_refl) _).
    + vm_compute. lia.
    + vm_compute. reflexivity.
  - refine (eq_trans
              (Hsell [user_U] (Some "Z") "HHH" 150%float 100%float 0%float
                 160%float init (or_introl eq_refl) eq_refl _) _).
    + vm_compute. lia.
    + vm_compute. reflexivity.
Defined.

(** A scan that cannot read the sheets, one that cannot write the log,
    and an ordinary one. *)
Lemma scan_loop_survives_exceptions_witness :
  scan float_of_str_demo str_demo upper_demo world_down init
  = {| alert_counters := ∅; trace := [Sleep 300] |}
  ∧ sleeps (trace (main_loop float_of_str_demo str_demo upper_demo
                     [world_down; world_readonly; world_AAA] init))
    = 3.
Proof.
  destruct (scan_loop_survives_exceptions float_of_str_demo str_demo upper_demo world_down init)
    as (Hcaught & Hload & _ & _ & _ & Hsleeps).
  split.
  - apply (Hcaught (SheetError "APIError") init). by apply Hload.
  - apply (Hsleeps [world_down; world_readonly; world_AAA]).
Defined.


(** The 20M average of HHH moves from 160 to 161. *)
Lemma sell_key_carries_sma_witness :
  let key := sell_alert_key (Some "U") "HHH" (sell_decision str_code 150 100 0 160).2 in
  let key' := sell_alert_key (Some "U") "HHH" (sell_decision str_code 150 100 0 161).2 in
  key ≠ key'
  ∧ alert_counters
      (sell_for_holding str_code [user_U] (Some "U") "HHH" 150 100 0 160
         (counting key 4)).2 !! key'
    = None.
Proof.
  destruct (sell_key_carries_sma str_code (Some "U") "HHH" 150 100 0 160 150 100 0 161)
    as (Hne & Hframe & _).
  - apply str_code_inj.
  - reflexivity.
  - reflexivity.
  - right. simpl. intros H.
    apply (f_equal (λ x, (x =? 160)%float)) in H. discriminate H.
  - split; [exact Hne|]. rewrite Hframe. by apply lookup_singleton_ne.
Defined.

(** An append that fails at the fifth alert: the scan ends there, the
    counter stays at 5 and the sends stay sent, the loop sleeps; the
    next scan, which finds no record, tries the append again. *)
Example failed_append_is_survived :
  let key := buy_alert_key str_demo "U" "AAA" 100 "2024-05-07" in
  let s1 := scan float_of_str_demo str_demo upper_demo world_readonly (counting key 4) in
  let s2 := scan float_of_str_demo str_demo upper_demo world_AAA s1 in
  (cycle float_of_str_demo str_demo upper_demo world_readonly (counting key 4)).1
  = Raised (SheetError "APIError")
  ∧ alert_counters s1 = {[ key := 5 ]}
  ∧ length (notifications (trace s1)) = 2
  ∧ rows_appended (trace s1) = []
  ∧ sleeps (trace s1) = 1
  ∧ notifications (trace s2) = notifications (trace s1)
  ∧ rows_appended (trace s2)
    = [["U"; "AAA"; "2024-05"; "buy"; "2024-05-07 09:30:00"]].
Proof. vm_compute. repeat split. Qed.

(** C1 (a defect of main.py 169).  The row of the month is not
    appended once only: the test [alert_counters[alert_key] == 5] stands
    after the send block, not inside it, so an evaluation that finds the
    counter already at 5 sends nothing and appends the row again.  Five
    scans of the AAA scenario send five alerts and append the row; a
    sixth scan with the same inputs sends nothing, changes no counter,
    and appends the row a second time.  So does one scan whose watch
    list has AAA on two rows, when it sends the fifth alert. *)
Example rescan_at_cap_appends_again :
  let key := buy_alert_key str_demo "U" "AAA" 100 "2024-05-07" in
  let row := ["U"; "AAA"; "2024-05"; "buy"; "2024-05-07 09:30:00"] in
  let s5 := main_loop float_of_str_demo str_demo upper_demo (replicate 5 world_AAA) init in
  let s6 := scan float_of_str_demo str_demo upper_demo world_AAA s5 in
  let twice := scan float_of_str_demo str_demo upper_demo (world_of (Ok sheets_AAA_twice))
                 (counting key 4) in
  alert_counters s5 = {[ key := 5 ]}
  ∧ rows_appended (trace s5) = [row]
  ∧ notifications (trace s6) = notifications (trace s5)
  ∧ alert_counters s6 = alert_counters s5
  ∧ rows_appended (trace s6) = [row; row]
  ∧ length (notifications (trace twice)) = 2
  ∧ rows_appended (trace twice) = [row; row].
Proof. vm_compute. repeat split. Qed.

(** C9 (a defect of main.py 50).  [fetch_price] catches every
    exception of the lookup and then puts [(symbol, None)], but
    [symbol.upper()] stands before its [try].  A Stock cell of digits
    only is read from the sheet as an int: for such a symbol the
    AttributeError of [upper] ends the thread before anything is put.
    Asked for AAA, 500325 and CCC, [get_prices] returns the entries of
    AAA and CCC only; the requested symbol 500325 has no entry, where
    the lookup of CCC, which came back empty, has its [None]. *)
Example int_symbol_gets_no_entry :
  let symbols := [CStr "AAA"; CInt 500325; CStr "CCC"] in
  let prices := get_prices upper_demo market_demo symbols in
  fetch_price upper_demo market_demo (CInt 500325) = None
  ∧ prices = {[ "AAA" := Some 105%float; "CCC" := None ]}
  ∧ size prices = 2
  ∧ prices !! "CCC" = Some None
  ∧ prices !! "500325" = None.
Proof. vm_compute. repeat split. Qed.

(** ** Further scenarios *)

(** The log cannot be written when U gets the fifth alert. *)
Lemma cycle_raises_only_witness :
  w_load_sheets world_readonly = Raised (SheetError "APIError")
  ∨ (SheetError "APIError" = KeyError "Stock"
     ∧ ∃ sh row, w_load_sheets world_readonly = Ok sh ∧ row ∈ ath_data sh
                 ∧ ath_Stock row = None)
  ∨ (∃ row, w_append_row world_readonly row = Some (SheetError "APIError")).
Proof.
  apply (cycle_raises_only float_of_str_demo str_demo upper_demo world_readonly
           (counting (buy_alert_key str_demo "U" "AAA" 100 "2024-05-07") 4)
           (SheetError "APIError")
           (cycle float_of_str_demo str_demo upper_demo world_readonly
              (counting (buy_alert_key str_demo "U" "AAA" 100 "2024-05-07") 4)).2).
  vm_compute. reflexivity.
Defined.

(** The AAA scenario with the provider down. *)
Lemma market_down_scan_is_quiet_witness :
  cycle float_of_str_demo str_demo upper_demo world_market_down init = (Ok tt, init)
  ∧ scan float_of_str_demo str_demo upper_demo world_market_down init
    = {| alert_counters := ∅; trace := [Sleep CHECK_INTERVAL] |}.
Proof.
  apply (market_down_scan_is_quiet float_of_str_demo str_demo upper_demo world_market_down
           sheets_AAA init).
  - reflexivity.
  - intros row Hrow. apply list_elem_of_singleton in Hrow as ->. discriminate.
  - intros yf_symbol p. discriminate.
Defined.

(** A watch list without its Stock column, and a holding that would
    signal. *)
Lemma missing_stock_column_witness :
  cycle float_of_str_demo str_demo upper_demo (world_of (Ok sheets_no_stock_column)) init
  = (Raised (KeyError "Stock"), init)
  ∧ scan float_of_str_demo str_demo upper_demo (world_of (Ok sheets_no_stock_column)) init
    = {| alert_counters := ∅; trace := [Sleep CHECK_INTERVAL] |}.
Proof.
  apply (missing_stock_column float_of_str_demo str_demo upper_demo
           (world_of (Ok sheets_no_stock_column)) sheets_no_stock_column init eq_refl).
  eexists. split; [left | reflexivity].
Defined.

(** AAA is at 105, above its ATH, and the month of U is logged. *)
Lemma buy_phase_all_suppressed_witness :
  buy_phase float_of_str_demo str_demo upper_demo (world_of (Ok sheets_AAA_logged))
    sheets_AAA_logged init
  = (Ok tt, init).
Proof.
  apply buy_phase_all_suppressed.
  - intros row Hrow. apply list_elem_of_singleton in Hrow as ->. discriminate.
  - intros row stock user Hrow Hstock Huser.
    apply list_elem_of_singleton in Hrow as ->.
    apply list_elem_of_singleton in Huser as ->.
    injection Hstock as <-. reflexivity.
Defined.

(** Seven evaluations of U and AAA at 105. *)
Lemma repeated_buy_evaluations_witness :
  let key := buy_alert_key str_demo "U" "AAA" 100 "2024-05-07" in
  let s7 := Nat.iter 7
              (λ s, (buy_for_user str_demo world_AAA [] "2024-05" "2024-05-07" "AAA"
                       100 105 user_U s).2) init in
  default 0 (alert_counters s7 !! key) = 5
  ∧ length (notifications (trace s7)) = 10.
Proof.
  intros key s7.
  destruct (repeated_buy_evaluations str_demo world_AAA [] "2024-05" "2024-05-07"
              "AAA" 100 105 "U" user_U.2 init 7 eq_refl eq_refl eq_refl)
    as [Hc Ht].
  split; [exact Hc|].
  apply (f_equal length) in Ht. vm_compute in Ht. vm_compute. exact Ht.
Defined.

(** Seven evaluations of the holding HHH of U at 150. *)
Lemma repeated_sell_evaluations_witness :
  let key := sell_alert_key (Some "U") "HHH" "Price below 20M SMA (160.0)" in
  let s7 := Nat.iter 7
              (λ s, (sell_for_holding str_demo [user_U] (Some "U") "HHH" 150 100
                       0 160 s).2) init in
  default 0 (alert_counters s7 !! key) = 5
  ∧ length (trace s7) = 10.
Proof.
  intros key s7.
  destruct (repeated_sell_evaluations str_demo [user_U] (Some "U") "HHH" 150 100
              0 160 init 7 eq_refl eq_refl)
    as [Hc Ht].
  split; [exact Hc|].
  apply (f_equal length) in Ht. vm_compute in Ht. vm_compute. exact Ht.
Defined.

(** The keys of U and AAA on the 7th and on the 8th of May. *)
Lemma buy_key_is_per_day_witness :
  buy_alert_key str_demo "U" "AAA" 100 "2024-05-07"
  ≠ buy_alert_key str_demo "U" "AAA" 100 "2024-05-08"
  ∧ buy_alert_key str_demo "U" "AAA" 100 "2024-05-07"
    ≠ sell_alert_key (Some "U") "AAA" "Price below 20M SMA (160.0)".
Proof.
  destruct (buy_key_is_per_day str_demo "U" "AAA" 100 "2024-05-07" "2024-05-08")
    as (Hne & _ & Hsell).
  - discriminate.
  - split; [exact Hne | apply Hsell].
Defined.

(** Names without colons; and what a colon in a name does: two users
    and stocks with one key. *)
Lemma alert_keys_are_injective_witness :
  ("U" = "U" ∧ "AAA" = "AAA" ∧ str_demo 100 = str_demo 100
   ∧ "2024-05-07" = "2024-05-07")
  ∧ buy_alert_key str_demo "a:b" "c" 100 "2024-05-07"
    = buy_alert_key str_demo "a" "b:c" 100 "2024-05-07".
Proof.
  split; [|reflexivity].
  apply (proj1 (alert_keys_are_injective str_demo)); reflexivity.
Defined.

(** The directory where U stands on two rows. *)
Lemma user_map_is_a_dict_witness :
  NoDup [("U", {| telegram_id := ""; email := "u@example.org" |})].*1
  ∧ user_lookup [("U", {| telegram_id := ""; email := "u@example.org" |})] (Some "")
    = None.
Proof.
  destruct (user_map_is_a_dict str_demo strip_demo directory_demo
              [("U", {| telegram_id := ""; email := "u@example.org" |})] eq_refl)
    as (Hd & _ & Hblank & _).
  by split.
Defined.

Lemma user_map_last_row_wins_witness :
  dict_get [("U", {| telegram_id := ""; email := "u@example.org" |})] "U"
  = Some {| telegram_id := ""; email := "u@example.org" |}.
Proof.
  apply (user_map_last_row_wins str_demo strip_demo
           [ {| dir_Name := Some "U"; dir_Telegram_ID := CInt 42;
                dir_Email := CStr "old@example.org" |};
             {| dir_Name := Some ""; dir_Telegram_ID := CInt 7; dir_Email := CInt 0 |} ]
           {| dir_Name := Some "U"; dir_Telegram_ID := CStr "";
              dir_Email := CStr "  u@example.org " |}
           [] "U" {| telegram_id := ""; email := "u@example.org" |}
           [("U", {| telegram_id := ""; email := "u@example.org" |})]
           eq_refl eq_refl eq_refl).
  - intros u' Hu'. by apply elem_of_nil in Hu'.
  - reflexivity.
Defined.

(** The Stock cells of the sheets hold the int 500325; the provider has
    a close of 105 for 500325.NS, above the ATH of 100 and below the 20M
    average of 160.  Had the cells held the text, U would have got the
    buy alert and the sell alert. *)
Lemma non_text_stock_is_skipped_witness :
  scan float_of_str_demo str_demo upper_demo (world_500325 (CInt 500325)) init
  = {| alert_counters := ∅; trace := [Sleep CHECK_INTERVAL] |}
  ∧ length (notifications
              (trace (scan float_of_str_demo str_demo upper_demo
                        (world_500325 (CStr "500325")) init)))
    = 4.
Proof.
  split; [|vm_compute; reflexivity].
  destruct (non_text_stock_is_skipped float_of_str_demo str_demo upper_demo
              (world_500325 (CInt 500325)) (sheets_500325 (CInt 500325)) init)
    as (_ & _ & Hscan).
  apply Hscan.
  - reflexivity.
  - intros row stock Hrow. apply list_elem_of_singleton in Hrow as ->.
    split; discriminate.
  - intros row stock Hrow. apply list_elem_of_singleton in Hrow as ->.
    discriminate.
Defined.
